(** * Product feed validator and schema generator: a shallow embedding

    The development follows [src/app.py]: [validate_field],
    [validate_product_feed], [generate_schema_markup] and
    [extract_product_from_schema], over the registry returned by
    [load_specifications].

    Python values are modelled as the code meets them: a text is a [string]
    whose characters are the code points 0 to 255, one per [ascii], with the
    white space and the case mapping Python has on them; integers are [Z],
    floats are binary64 values of [spec_float],
    dictionaries with string keys are [gmap string _], the ordered registry
    is an association list, Python sets are [gset string]. *)

From Stdlib Require Import ZArith String Ascii List Lia Floats.SpecFloat.
From stdpp Require Import base strings gmap list pretty.

Open Scope string_scope.
Open Scope list_scope.
Open Scope Z_scope.

(** ** Python builtins used by the source *)

Module Py.

(** [str.isspace] on one character: TAB, LF, VT, FF, CR, the four
    separators FS, GS, RS, US, the space, NEL and the no-break space. *)
Definition is_space (c : ascii) : bool :=
  match c with
  | "009" | "010" | "011" | "012" | "013"
  | "028" | "029" | "030" | "031" | " "
  | "133" | "160" => true
  | _ => false
  end%char.

(** The white space that [float] strips from a text: TAB, LF, VT, FF, CR
    and the space, and NEL and the no-break space, which it first replaces
    by a space. The separators FS, GS, RS, US are not stripped. *)
Definition is_float_space (c : ascii) : bool :=
  match c with
  | "009" | "010" | "011" | "012" | "013" | " "
  | "133" | "160" => true
  | _ => false
  end%char.

Definition is_digit (c : ascii) : bool :=
  match c with
  | "0" | "1" | "2" | "3" | "4" | "5" | "6" | "7" | "8" | "9" => true
  | _ => false
  end%char.

Definition digit_val (c : ascii) : Z := Z.of_N (N_of_ascii c) - 48.

(** The characters that [str.lower] changes: A to Z, and the capital
    letters 192 to 222 of the upper half, without the sign 215. *)
Definition is_upper (c : ascii) : bool :=
  let n := N_of_ascii c in
  ((65 <=? n)%N && (n <=? 90)%N)
  || ((192 <=? n)%N && (n <=? 222)%N && negb (n =? 215)%N).

Definition lower_char (c : ascii) : ascii :=
  if is_upper c then ascii_of_N (N_of_ascii c + 32) else c.

(** [s.lower()] *)
Fixpoint lower (s : string) : string :=
  match s with
  | EmptyString => EmptyString
  | String c s' => String (lower_char c) (lower s')
  end.

Definition flush (cur : string) : list string :=
  match cur with
  | EmptyString => []
  | _ => [String.rev cur]
  end.

Fixpoint split_go (cur : string) (s : string) : list string :=
  match s with
  | EmptyString => flush cur
  | String c s' =>
      if is_space c then flush cur ++ split_go EmptyString s'
      else split_go (String c cur) s'
  end.

(** [s.split()]: the maximal runs of characters that are not white space. *)
Definition split (s : string) : list string := split_go EmptyString s.

(** [sep.join(l)] *)
Definition join (sep : string) (l : list string) : string := String.concat sep l.

(** [sub in s] for strings. *)
Fixpoint contains (sub s : string) : bool :=
  String.prefix sub s ||
  match s with
  | EmptyString => false
  | String _ s' => contains sub s'
  end.

(** [x in l] for a list of strings. *)
Definition mem (x : string) (l : list string) : bool :=
  existsb (String.eqb x) l.

(** *** [float(s)] for a string

    The text is stripped of white space, underscores are accepted between
    digits only, then a sign and either [inf], [infinity], [nan] (any
    case) or a decimal numeral with optional fraction and exponent. The
    numeral is rounded to the nearest binary64 value, ties to even. *)

Fixpoint lstrip (s : list ascii) : list ascii :=
  match s with
  | c :: s' => if is_float_space c then lstrip s' else s
  | [] => []
  end.

Definition strip (s : list ascii) : list ascii :=
  rev (lstrip (rev (lstrip s))).

Fixpoint drop_underscores (prev : option ascii) (s : list ascii)
  : option (list ascii) :=
  match s with
  | [] =>
      match prev with
      | Some "_"%char => None
      | _ => Some []
      end
  | c :: s' =>
      if Ascii.eqb c "_" then
        match prev with
        | Some p => if is_digit p then drop_underscores (Some c) s' else None
        | None => None
        end
      else
        match prev with
        | Some "_"%char =>
            if is_digit c then cons c <$> drop_underscores (Some c) s' else None
        | _ => cons c <$> drop_underscores (Some c) s'
        end
  end.

Fixpoint take_digits (acc n : Z) (s : list ascii) : Z * Z * list ascii :=
  match s with
  | c :: s' =>
      if is_digit c then take_digits (10 * acc + digit_val c) (n + 1) s'
      else (acc, n, s)
  | [] => (acc, n, [])
  end.

Definition take_sign (s : list ascii) : bool * list ascii :=
  match s with
  | "-"%char :: r => (true, r)
  | "+"%char :: r => (false, r)
  | _ => (false, s)
  end.

(** A decimal numeral as mantissa and power of ten: [m * 10 ^ e]. *)
Definition parse_decimal (s : list ascii) : option (Z * Z) :=
  let '(ip, ni, r1) := take_digits 0 0 s in
  let '(m, nf, r2) :=
    match r1 with
    | "."%char :: r => take_digits ip 0 r
    | _ => (ip, 0, r1)
    end in
  if ni + nf =? 0 then None else
  match r2 with
  | [] => Some (m, - nf)
  | c :: r3 =>
      if Ascii.eqb c "e" || Ascii.eqb c "E" then
        let '(eneg, r4) := take_sign r3 in
        let '(ev, ne, r5) := take_digits 0 0 r4 in
        if ne =? 0 then None else
        match r5 with
        | [] => Some (m, (if eneg then - ev else ev) - nf)
        | _ => None
        end
      else None
  end.

Definition prec : Z := 53.
Definition emax : Z := 1024.

(** [float(n)] for an integer, and the rounding of [m * 10 ^ e]. *)
Definition float_of_Z (z : Z) : spec_float := binary_normalize prec emax z 0 false.

Definition float_of_decimal (neg : bool) (m e : Z) : spec_float :=
  if m =? 0 then S754_zero neg
  else if 0 <=? e then
    binary_normalize prec emax ((if neg then - m else m) * 10 ^ e) 0 neg
  else
    let d := 10 ^ (- e) in
    let k := Z.log2 d + 56 in
    let '(q, r) := Z.div_eucl (Z.shiftl m k) d in
    binary_round_aux prec emax neg q (- k) (new_location d r).

Definition float_of_string (s : string) : option spec_float :=
  body ← drop_underscores None (strip (list_ascii_of_string s));
  let '(neg, r) := take_sign body in
  let word := lower (string_of_list_ascii r) in
  if String.eqb word "inf" || String.eqb word "infinity" then Some (S754_infinity neg)
  else if String.eqb word "nan" then Some S754_nan
  else '(m, e) ← parse_decimal r; Some (float_of_decimal neg m e).

(** [int(f)] for a float: truncation toward zero; [inf] and [nan] raise. *)
Definition int_of_float (f : spec_float) : option Z :=
  match f with
  | S754_zero _ => Some 0
  | S754_finite s m e =>
      let a := if 0 <=? e then Z.shiftl (Zpos m) e else Z.shiftr (Zpos m) (- e) in
      Some (if s then - a else a)
  | S754_infinity _ | S754_nan => None
  end.

Definition is_nan (f : spec_float) : bool :=
  match f with S754_nan => true | _ => false end.

End Py.

(** ** Data model *)

(** A scalar as a cell of the data frame or a leaf of a JSON document holds
    it. The missing cell of pandas is the float NaN. *)
Inductive Value :=
  | VNone
  | VBool (b : bool)
  | VInt (z : Z)
  | VFloat (f : spec_float)
  | VStr (s : string).

#[warnings="-register-all"]
Inductive json :=
  | JVal (v : Value)
  | JArr (l : list json)
  | JObj (d : gmap string json).

Abbreviation JStr s := (JVal (VStr s)).
Abbreviation NaN := (VFloat S754_nan).

Global Instance spec_float_eq_dec : EqDecision spec_float.
Proof. solve_decision. Defined.

Global Instance Value_eq_dec : EqDecision Value.
Proof. solve_decision. Defined.

(** What the source calls in packages that are not part of the repository:
    the truth value of [validators.url(s)] and of [re.match(pattern, s)],
    the latter [None] when the call raises [re.error] on a pattern that does
    not compile, and [str] of a float, a list or a dictionary. *)
Record PyLib := {
  validators_url : string -> bool;
  re_match : string -> string -> option bool;
  float_str : spec_float -> string;
  json_str : json -> string;
}.

Inductive PyExc :=
  | KeyError (key : string)
  | IndexError
  | AttributeError
  | ReError.

Inductive result (A : Type) :=
  | Ok (a : A)
  | Raise (e : PyExc).
Arguments Ok {A} a.
Arguments Raise {A} e.

Global Instance result_ret : MRet result := fun A a => Ok a.

Global Instance result_bind : MBind result := fun A B k r =>
  match r with
  | Ok a => k a
  | Raise e => Raise e
  end.

Inductive FieldType := String_ | URL | Enum | Integer | Number.

(** The three settings of the ['required'] key: [True], [False] and the
    string ['conditional']. *)
Inductive Required := ReqTrue | ReqFalse | ReqConditional.

(** One entry of the registry: the keys the validator reads, each absent
    ([None]) or set. [recommended] is the truth value of
    [spec.get('recommended')]. *)
Record FieldSpec := {
  type : option FieldType;
  values : option (list string);
  max_length : option Z;
  pattern : option string;
  required : option Required;
  recommended : bool;
}.

(** A data frame: its column labels and its rows; a row that carries no
    value for a column holds NaN there. The index is the default one,
    [0, 1, ...]. *)
Record DataFrame := {
  columns : list string;
  rows : list (gmap string Value);
}.

Record Coverage := {
  present : bool;
  filled : Z;
  percentage : Value;
}.

(** An element of [all_errors] or [all_warnings]. *)
Record Entry := {
  product_id : Value;
  messages : list string;
}.

Record Results := {
  total_products : Z;
  products_with_errors : Z;
  products_with_warnings : Z;
  field_coverage : gmap string Coverage;
  all_errors : list Entry;
  all_warnings : list Entry;
  missing_required_fields : gset string;
  missing_recommended_fields : gset string;
}.

(** ** load_specifications *)

Definition spec_enum (vs : list string) (req : Required) : FieldSpec :=
  {| type := Some Enum; values := Some vs; max_length := None;
     pattern := None; required := Some req; recommended := false |}.

Definition spec_string (ml : option Z) (req : Required) : FieldSpec :=
  {| type := Some String_; values := None; max_length := ml;
     pattern := None; required := Some req; recommended := false |}.

Definition spec_plain (t : FieldType) (req : Required) : FieldSpec :=
  {| type := Some t; values := None; max_length := None;
     pattern := None; required := Some req; recommended := false |}.

Definition load_specifications : list (string * FieldSpec) :=
  [ ("enable_search", spec_enum ["true"; "false"] ReqTrue);
    ("enable_checkout", spec_enum ["true"; "false"] ReqTrue);
    ("id", spec_string (Some 100) ReqTrue);
    ("gtin", {| type := Some String_; values := None; max_length := None;
                pattern := Some "^\d{8,14}$"; required := Some ReqFalse;
                recommended := true |});
    ("mpn", spec_string (Some 70) ReqConditional);
    ("title", spec_string (Some 150) ReqTrue);
    ("description", spec_string (Some 5000) ReqTrue);
    ("link", spec_plain URL ReqTrue);
    ("condition", spec_enum ["new"; "refurbished"; "used"] ReqConditional);
    ("product_category", spec_string None ReqTrue);
    ("brand", spec_string (Some 70) ReqConditional);
    ("material", spec_string (Some 100) ReqTrue);
    ("weight", spec_plain Number ReqTrue);
    ("image_link", spec_plain URL ReqTrue);
    ("price", spec_plain Number ReqTrue);
    ("availability", spec_enum ["in_stock"; "out_of_stock"; "preorder"] ReqTrue);
    ("inventory_quantity", spec_plain Integer ReqTrue);
    ("seller_name", spec_string (Some 70) ReqTrue);
    ("seller_url", spec_plain URL ReqTrue);
    ("return_policy", spec_plain URL ReqTrue);
    ("return_window", spec_plain Integer ReqTrue) ].

(** ** Scalars *)

(** [pd.isna(v)] and [pd.notna(v)] on a scalar. *)
Definition isna (v : Value) : bool :=
  match v with
  | VNone => true
  | VFloat f => Py.is_nan f
  | _ => false
  end.

Definition notna (v : Value) : bool := negb (isna v).

(** The test of the absence branch:
    [pd.isna(value) or value == '' or value is None]. *)
Definition is_missing (v : Value) : bool :=
  isna v
  || match v with VStr EmptyString => true | _ => false end
  || match v with VNone => true | _ => false end.

(** [row[field_name]] for a declared column. *)
Definition cell (row : gmap string Value) (field_name : string) : Value :=
  default NaN (row !! field_name).

Definition len (s : string) : Z := Z.of_nat (String.length s).

Section WithLibrary.

Variable L : PyLib.

(** [str(v)] *)
Definition str (v : Value) : string :=
  match v with
  | VNone => "None"
  | VBool true => "True"
  | VBool false => "False"
  | VInt z => pretty z
  | VFloat f => float_str L f
  | VStr s => s
  end.

(** [str(x)] and the same inside an f-string, for any JSON value. *)
Definition str_json (x : json) : string :=
  match x with
  | JVal v => str v
  | _ => json_str L x
  end.

(** [float(v)]: [None] stands for the exception. An integer too large for
    a float raises as well; it is an infinity here and [int] raises on it. *)
Definition float (v : Value) : option spec_float :=
  match v with
  | VNone => None
  | VBool b => Some (Py.float_of_Z (if b then 1 else 0))
  | VInt z => Some (Py.float_of_Z z)
  | VFloat f => Some f
  | VStr s => Py.float_of_string s
  end.

(** [int(float(v))] *)
Definition int_float (v : Value) : option Z :=
  f ← float v; Py.int_of_float f.

(** ** validate_field *)

Definition type_errors (field_name : string) (value : Value) (spec : FieldSpec)
  : result (list string) :=
  match type spec with
  | Some String_ =>
      let value := str value in
      match max_length spec with
      | Some n =>
          if n <? len value
          then Ok ["'" +:+ field_name +:+ "' exceeds max length of "
                     +:+ pretty n +:+ " characters"]
          else Ok []
      | None => Ok []
      end
  | Some URL =>
      if validators_url L (str value) then Ok []
      else Ok ["'" +:+ field_name +:+ "' is not a valid URL"]
  | Some Enum =>
      if Py.mem (Py.lower (str value)) (map Py.lower (default [] (values spec)))
      then Ok []
      else
        match values spec with
        | Some vs =>
            Ok ["'" +:+ field_name +:+ "' must be one of:  " +:+ Py.join ", " vs]
        | None => Raise (KeyError "values")
        end
  | Some Integer =>
      match int_float value with
      | Some int_val =>
          if int_val <? 0
          then Ok ["'" +:+ field_name +:+ "' must be non-negative"]
          else Ok []
      | None => Ok ["'" +:+ field_name +:+ "' must be an integer"]
      end
  | Some Number =>
      match Py.split (str value) with
      | tok :: _ =>
          match Py.float_of_string tok with
          | Some _ => Ok []
          | None => Ok ["'" +:+ field_name +:+ "' must be a number"]
          end
      | [] => Ok ["'" +:+ field_name +:+ "' must be a number"]
      end
  | None => Ok []
  end.

Definition pattern_errors (field_name : string) (value : Value) (spec : FieldSpec)
  : result (list string) :=
  match pattern spec with
  | Some p =>
      match re_match L p (str value) with
      | Some true => Ok []
      | Some false =>
          Ok ["'" +:+ field_name +:+ "' does not match required pattern"]
      | None => Raise ReError
      end
  | None => Ok []
  end.

Definition validate_field (field_name : string) (value : Value) (spec : FieldSpec)
  : result (list string * list string) :=
  if is_missing value then
    match required spec with
    | Some ReqTrue =>
        Ok (["Required field '" +:+ field_name +:+ "' is missing"], [])
    | _ =>
        if recommended spec
        then Ok ([], ["Recommended field '" +:+ field_name +:+ "' is missing"])
        else Ok ([], [])
    end
  else
    errors ← type_errors field_name value spec;
    unmatched ← pattern_errors field_name value spec;
    Ok (errors ++ unmatched, []).

(** ** validate_product_feed *)

Definition in_columns (field_name : string) (df : DataFrame) : bool :=
  Py.mem field_name (columns df).

(** [len(df)] *)
Definition len_df (df : DataFrame) : Z := Z.of_nat (length (rows df)).

(** [df[field_name].notna().sum()] *)
Definition notna_sum (df : DataFrame) (field_name : string) : Z :=
  Z.of_nat (length (List.filter (fun row => notna (cell row field_name)) (rows df))).

(** [(non_empty / len(df)) * 100] on a numpy integer: binary64 division,
    which reports a zero divisor by a warning and yields NaN or an
    infinity, then binary64 multiplication. *)
Definition percent (non_empty n : Z) : Value :=
  VFloat (SFmul Py.prec Py.emax
            (SFdiv Py.prec Py.emax (Py.float_of_Z non_empty) (Py.float_of_Z n))
            (Py.float_of_Z 100)).

Definition set_coverage (field_name : string) (c : Coverage) (r : Results) : Results :=
  {| total_products := total_products r;
     products_with_errors := products_with_errors r;
     products_with_warnings := products_with_warnings r;
     field_coverage := <[field_name := c]> (field_coverage r);
     all_errors := all_errors r;
     all_warnings := all_warnings r;
     missing_required_fields := missing_required_fields r;
     missing_recommended_fields := missing_recommended_fields r |}.

Definition add_missing_required (field_name : string) (r : Results) : Results :=
  {| total_products := total_products r;
     products_with_errors := products_with_errors r;
     products_with_warnings := products_with_warnings r;
     field_coverage := field_coverage r;
     all_errors := all_errors r;
     all_warnings := all_warnings r;
     missing_required_fields := missing_required_fields r ∪ {[ field_name ]};
     missing_recommended_fields := missing_recommended_fields r |}.

Definition add_missing_recommended (field_name : string) (r : Results) : Results :=
  {| total_products := total_products r;
     products_with_errors := products_with_errors r;
     products_with_warnings := products_with_warnings r;
     field_coverage := field_coverage r;
     all_errors := all_errors r;
     all_warnings := all_warnings r;
     missing_required_fields := missing_required_fields r;
     missing_recommended_fields := missing_recommended_fields r ∪ {[ field_name ]} |}.

Definition add_errors (e : Entry) (r : Results) : Results :=
  {| total_products := total_products r;
     products_with_errors := products_with_errors r + 1;
     products_with_warnings := products_with_warnings r;
     field_coverage := field_coverage r;
     all_errors := all_errors r ++ [e];
     all_warnings := all_warnings r;
     missing_required_fields := missing_required_fields r;
     missing_recommended_fields := missing_recommended_fields r |}.

Definition add_warnings (e : Entry) (r : Results) : Results :=
  {| total_products := total_products r;
     products_with_errors := products_with_errors r;
     products_with_warnings := products_with_warnings r + 1;
     field_coverage := field_coverage r;
     all_errors := all_errors r;
     all_warnings := all_warnings r ++ [e];
     missing_required_fields := missing_required_fields r;
     missing_recommended_fields := missing_recommended_fields r |}.

(** One turn of the loop "Check field coverage". *)
Definition coverage_step (df : DataFrame) (results : Results)
    (item : string * FieldSpec) : Results :=
  let '(field_name, spec) := item in
  if in_columns field_name df then
    let non_empty := notna_sum df field_name in
    set_coverage field_name
      {| present := true; filled := non_empty;
         percentage := percent non_empty (len_df df) |} results
  else
    let results :=
      set_coverage field_name
        {| present := false; filled := 0; percentage := VInt 0 |} results in
    match required spec with
    | Some ReqTrue => add_missing_required field_name results
    | _ =>
        if recommended spec then add_missing_recommended field_name results
        else results
    end.

(** What the coverage loop stores for a field: it depends on the frame and
    on the name only. *)
Definition coverage_of (df : DataFrame) (field_name : string) : Coverage :=
  if in_columns field_name df then
    {| present := true; filled := notna_sum df field_name;
       percentage := percent (notna_sum df field_name) (len_df df) |}
  else {| present := false; filled := 0; percentage := VInt 0 |}.

(** An entry whose message can be built: an Enum entry carries ['values']. *)
Definition enum_has_values (spec : FieldSpec) : bool :=
  match type spec, values spec with
  | Some Enum, None => false
  | _, _ => true
  end.

(** An entry on which [validate_field] returns for every value: its message
    can be built, and [re.match] takes its pattern, if it has one. *)
Definition spec_runs (spec : FieldSpec) : Prop :=
  enum_has_values spec = true
  ∧ ∀ p, pattern spec = Some p → ∀ s, re_match L p s ≠ None.

(** The same, asked of the entries that the frame has a column for. *)
Definition runs_on (df : DataFrame) (item : string * FieldSpec) : Prop :=
  in_columns item.1 df = true → spec_runs item.2.

(** The inner loop of "Validate each product": the errors and warnings of
    one row, over the registry in order. *)
Fixpoint validate_row (df : DataFrame) (row : gmap string Value)
    (specs : list (string * FieldSpec)) : result (list string * list string) :=
  match specs with
  | [] => Ok ([], [])
  | (field_name, spec) :: specs' =>
      if in_columns field_name df then
        '(errors, warnings) ← validate_field field_name (cell row field_name) spec;
        '(product_errors, product_warnings) ← validate_row df row specs';
        Ok (errors ++ product_errors, warnings ++ product_warnings)
      else validate_row df row specs'
  end.

(** [row.get('id', f'Row {idx}')] *)
Definition row_id (df : DataFrame) (idx : Z) (row : gmap string Value) : Value :=
  if in_columns "id" df then cell row "id" else VStr ("Row " +:+ pretty idx).

Definition record_row (df : DataFrame) (idx : Z) (row : gmap string Value)
    (product_errors product_warnings : list string) (results : Results) : Results :=
  let results :=
    match product_errors with
    | [] => results
    | _ => add_errors {| product_id := row_id df idx row;
                         messages := product_errors |} results
    end in
  match product_warnings with
  | [] => results
  | _ => add_warnings {| product_id := row_id df idx row;
                         messages := product_warnings |} results
  end.

(** The outer loop over [df.iterrows()], from index [idx] on. *)
Fixpoint validate_rows (df : DataFrame) (specs : list (string * FieldSpec))
    (idx : Z) (rs : list (gmap string Value)) (results : Results) : result Results :=
  match rs with
  | [] => Ok results
  | row :: rs' =>
      '(product_errors, product_warnings) ← validate_row df row specs;
      validate_rows df specs (idx + 1) rs'
        (record_row df idx row product_errors product_warnings results)
  end.

Definition initial_results (df : DataFrame) : Results :=
  {| total_products := len_df df;
     products_with_errors := 0;
     products_with_warnings := 0;
     field_coverage := ∅;
     all_errors := [];
     all_warnings := [];
     missing_required_fields := ∅;
     missing_recommended_fields := ∅ |}.

Definition validate_product_feed (df : DataFrame) (specs : list (string * FieldSpec))
  : result Results :=
  let results := fold_left (coverage_step df) specs (initial_results df) in
  validate_rows df specs 0 (rows df) results.

(** ** generate_schema_markup *)

Definition field_mapping : list (string * string) :=
  [ ("id", "sku"); ("title", "name"); ("description", "description");
    ("link", "url"); ("brand", "brand"); ("gtin", "gtin"); ("mpn", "mpn");
    ("image_link", "image"); ("material", "material"); ("weight", "weight") ].

(** The guard [k in product_data and pd.notna(product_data[k])], with the
    value it lets through. *)
Definition given (product_data : gmap string Value) (k : string) : option Value :=
  match product_data !! k with
  | Some v => if notna v then Some v else None
  | None => None
  end.

Definition map_field (product_data : gmap string Value) (schema : gmap string json)
    (item : string * string) : gmap string json :=
  let '(csv_field, schema_field) := item in
  match given product_data csv_field with
  | Some value =>
      if String.eqb schema_field "brand" then
        <[schema_field :=
            JObj {[ "@type" := JStr "Brand"; "name" := JStr (str value) ]}]> schema
      else if String.eqb schema_field "image" then
        <[schema_field := JStr (str value)]> schema
      else
        <[schema_field := JStr (str value)]> schema
  | None => schema
  end.

(** What [map_field] stores under [schema_field] for a value it copies. *)
Definition rendered (schema_field : string) (value : Value) : json :=
  if String.eqb schema_field "brand"
  then JObj {[ "@type" := JStr "Brand"; "name" := JStr (str value) ]}
  else JStr (str value).

Definition availability_map : gmap string string :=
  {[ "in_stock" := "https://schema.org/InStock";
     "out_of_stock" := "https://schema.org/OutOfStock";
     "preorder" := "https://schema.org/PreOrder" ]}.

Definition make_offer (product_data : gmap string Value) (price : Value)
  : gmap string json :=
  let price_str := str price in
  let price_parts := Py.split price_str in
  let offer : gmap string json :=
    {[ "@type" := JStr "Offer";
       "price" := JStr (match price_parts with p :: _ => p | [] => price_str end);
       "priceCurrency" :=
         JStr (match price_parts with _ :: c :: _ => c | _ => "USD" end) ]} in
  let offer :=
    match given product_data "availability" with
    | Some a =>
        <["availability" :=
            JStr (default "https://schema.org/InStock"
                    (availability_map !! Py.lower (str a)))]> offer
    | None => offer
    end in
  let offer :=
    match given product_data "link" with
    | Some l => <["url" := JStr (str l)]> offer
    | None => offer
    end in
  match given product_data "seller_name" with
  | Some n =>
      <["seller" := JObj {[ "@type" := JStr "Organization";
                            "name" := JStr (str n) ]}]> offer
  | None => offer
  end.

Definition make_rating (product_data : gmap string Value) (r : Value)
  : gmap string json :=
  let rating : gmap string json :=
    {[ "@type" := JStr "AggregateRating"; "ratingValue" := JStr (str r) ]} in
  match given product_data "product_review_count" with
  | Some c => <["reviewCount" := JStr (str c)]> rating
  | None => rating
  end.

Definition generate_schema_markup (product_data : gmap string Value)
  : gmap string json :=
  let schema : gmap string json :=
    {[ "@context" := JStr "https://schema.org/"; "@type" := JStr "Product" ]} in
  let schema := fold_left (map_field product_data) field_mapping schema in
  let schema :=
    match given product_data "price" with
    | Some price => <["offers" := JObj (make_offer product_data price)]> schema
    | None => schema
    end in
  match given product_data "product_review_rating" with
  | Some r => <["aggregateRating" := JObj (make_rating product_data r)]> schema
  | None => schema
  end.

(** ** extract_product_from_schema *)

Definition mapping : list (string * string) :=
  [ ("name", "title"); ("description", "description"); ("url", "link");
    ("image", "image_link"); ("sku", "id"); ("gtin", "gtin"); ("mpn", "mpn");
    ("material", "material") ].

Definition extract_field (schema_data : gmap string json) (product : gmap string json)
    (item : string * string) : gmap string json :=
  let '(schema_key, csv_key) := item in
  match schema_data !! schema_key with
  | Some value =>
      match value with
      | JObj d => <[csv_key := default (JStr (str_json value)) (d !! "name")]> product
      | JArr (first :: _) => <[csv_key := first]> product
      | _ => <[csv_key := value]> product
      end
  | None => product
  end.

(** What [extract_field] stores for a value it finds. *)
Definition extracted (value : json) : json :=
  match value with
  | JObj d => default (JStr (str_json value)) (d !! "name")
  | JArr (first :: _) => first
  | _ => value
  end.

Definition extract_brand (schema_data : gmap string json) (product : gmap string json)
  : gmap string json :=
  match schema_data !! "brand" with
  | Some brand =>
      match brand with
      | JObj d => <["brand" := default brand (d !! "name")]> product
      | _ => <["brand" := brand]> product
      end
  | None => product
  end.

Definition extract_price (offers : gmap string json) (product : gmap string json)
  : gmap string json :=
  match offers !! "price" with
  | Some price =>
      let currency := default (JStr "USD") (offers !! "priceCurrency") in
      <["price" := JStr (str_json price +:+ " " +:+ str_json currency)]> product
  | None => product
  end.

Definition extract_availability (offers : gmap string json) (product : gmap string json)
  : result (gmap string json) :=
  match offers !! "availability" with
  | Some (JVal (VStr a)) =>
      let avail := Py.lower a in
      if Py.contains "instock" avail then
        Ok (<["availability" := JStr "in_stock"]> product)
      else if Py.contains "outofstock" avail then
        Ok (<["availability" := JStr "out_of_stock"]> product)
      else if Py.contains "preorder" avail then
        Ok (<["availability" := JStr "preorder"]> product)
      else Ok product
  | Some _ => Raise AttributeError
  | None => Ok product
  end.

Definition extract_offers (schema_data : gmap string json) (product : gmap string json)
  : result (gmap string json) :=
  match schema_data !! "offers" with
  | Some offers =>
      offers ← match offers with
               | JArr (first :: _) => Ok first
               | JArr [] => Raise IndexError
               | _ => Ok offers
               end;
      match offers with
      | JObj d => extract_availability d (extract_price d product)
      | _ => Ok product
      end
  | None => Ok product
  end.

Definition extract_rating (schema_data : gmap string json) (product : gmap string json)
  : gmap string json :=
  match schema_data !! "aggregateRating" with
  | Some (JObj rating) =>
      <["product_review_count" := default (JStr "") (rating !! "reviewCount")]>
        (<["product_review_rating" := default (JStr "") (rating !! "ratingValue")]>
           product)
  | _ => product
  end.

Definition extract_product_from_schema (schema_data : gmap string json)
  : result (gmap string json) :=
  let product := fold_left (extract_field schema_data) mapping ∅ in
  let product := extract_brand schema_data product in
  product ← extract_offers schema_data product;
  Ok (extract_rating schema_data product).

(** The price text after the trip through the offer: the first two tokens,
    with [USD] for a missing second one. *)
Definition price_round_trip (price_str : string) : string :=
  match Py.split price_str with
  | [] => price_str +:+ " USD"
  | [p] => p +:+ " USD"
  | p :: c :: _ => p +:+ " " +:+ c
  end.

(** The availability after the trip through the offer, from its lower-case
    text: the three known values, and [in_stock] for any other. *)
Definition availability_round_trip (a : string) : string :=
  if String.eqb a "out_of_stock" then "out_of_stock"
  else if String.eqb a "preorder" then "preorder"
  else "in_stock".

End WithLibrary.

(** ** An instance of the library, to run the code on examples

    It accepts as a URL a text without white space that starts with
    [http://] or [https://] and goes on, knows the one pattern of the
    registry (eight to fourteen digits, with the line end that [$] allows),
    prints a float by its exact decimal expansion and a container by a
    placeholder. Every theorem below is stated for an arbitrary library;
    this instance only makes the examples closed terms. *)

Module Sample.

Fixpoint all_chars (p : ascii -> bool) (s : string) : bool :=
  match s with
  | EmptyString => true
  | String c s' => p c && all_chars p s'
  end.

Definition url (s : string) : bool :=
  all_chars (fun c => negb (Py.is_space c)) s
  && ((String.prefix "http://" s && (7 <? len s))
      || (String.prefix "https://" s && (8 <? len s))).

Definition chomp (s : string) : string :=
  match String.rev s with
  | String "010"%char r => String.rev r
  | _ => s
  end.

Definition search (pat s : string) : option bool :=
  if String.eqb pat "^\d{8,14}$" then
    let body := chomp s in
    Some (all_chars Py.is_digit body && (8 <=? len body) && (len body <=? 14))
  else if String.eqb pat "(" then None
  else Some false.

Fixpoint drop_zeros (s : string) : string :=
  match s with
  | String "0"%char s' => drop_zeros s'
  | _ => s
  end.

Fixpoint zeros (n : nat) : string :=
  match n with
  | O => EmptyString
  | S n' => String "0"%char (zeros n')
  end.

Definition float_repr (f : spec_float) : string :=
  match f with
  | S754_nan => "nan"
  | S754_infinity s => if s then "-inf" else "inf"
  | S754_zero s => if s then "-0.0" else "0.0"
  | S754_finite s m e =>
      (if s then "-" else "") +:+
      (if 0 <=? e then pretty (Z.shiftl (Zpos m) e) +:+ ".0"
       else
         let d := 2 ^ (- e) in
         let digits := pretty ((Zpos m mod d) * 5 ^ (- e)) in
         let padded := zeros (Z.to_nat (- e) - String.length digits) +:+ digits in
         let frac := String.rev (drop_zeros (String.rev padded)) in
         pretty (Zpos m / d) +:+ "." +:+
         (match frac with EmptyString => "0" | _ => frac end))
  end.

Definition container_repr (x : json) : string :=
  match x with
  | JArr _ => "[...]"
  | JObj _ => "{...}"
  | JVal _ => ""
  end.

Definition lib : PyLib :=
  {| validators_url := url;
     re_match := search;
     float_str := float_repr;
     json_str := container_repr |}.

End Sample.

(** ** Inputs of the examples *)

(** The batch [[{title: "Shoe"}]]. *)
Definition df_shoe : DataFrame :=
  {| columns := ["title"];
     rows := [ {[ "title" := VStr "Shoe" ]} ] |}.

(** A feed file that has its header line and no record. *)
Definition df_header_only : DataFrame :=
  {| columns := ["id"; "title"; "price"]; rows := [] |}.

(** The frame of the one record that the page scraper falls back to on a
    page without title and description. *)
Definition df_blank_page : DataFrame :=
  {| columns := ["title"; "description"; "link"];
     rows := [ {[ "title" := VStr ""; "description" := VStr "";
                  "link" := VStr "https://example.com/p" ]} ] |}.

(** A record whose title is the empty string. *)
Definition blank_title : gmap string Value := {[ "title" := VStr "" ]}.

Definition shoe_record : gmap string Value :=
  {[ "id" := VStr "SKU1"; "title" := VStr "Shoe";
     "link" := VStr "https://a.com/p"; "brand" := VStr "Acme";
     "price" := VStr "79.99 USD"; "availability" := VStr "in_stock" ]}.

(** The required fields of the registry other than [title]. *)
Definition shoe_missing : list string :=
  [ "enable_search"; "enable_checkout"; "id"; "link"; "product_category";
    "material"; "weight"; "image_link"; "price"; "availability";
    "inventory_quantity"; "seller_name"; "seller_url"; "return_policy";
    "return_window" ].

Definition required_missing (field_name : string) : string :=
  "Required field '" +:+ field_name +:+ "' is missing".

Definition recommended_missing (field_name : string) : string :=
  "Recommended field '" +:+ field_name +:+ "' is missing".

(** The scenario of C1 as the specification words it: some record report of
    the batch lists the "is missing" error of each of the fifteen fields. *)
Definition shoe_scenario (L : PyLib) : Prop :=
  ∃ results report,
    validate_product_feed L df_shoe load_specifications = Ok results
    ∧ report ∈ all_errors results
    ∧ ∀ field_name, field_name ∈ shoe_missing →
        required_missing field_name ∈ messages report.

(** The instance of C4 that the specification names: the document made
    from a record with an empty title has no [name] key. *)
Definition blank_title_has_no_name (L : PyLib) : Prop :=
  generate_schema_markup L blank_title !! "name" = None.

(** A record whose title is a number, as a spreadsheet column of numbers
    gives it. *)
Definition numeric_title : gmap string Value := {[ "title" := VInt 1984 ]}.

(** The round trip of C3 as the specification words it, for the title: the
    extracted record has the original value as its title. *)
Definition title_round_trip (L : PyLib) (product_data : gmap string Value)
  : Prop :=
  ∃ product,
    extract_product_from_schema L (generate_schema_markup L product_data)
    = Ok product
    ∧ product !! "title" = JVal <$> product_data !! "title".

(** ** The reports of a batch, row by row

    The entries that the loop over the rows appends, for rows paired with
    the result of their validation: one entry per row whose list is not
    empty, in row order, numbered from [idx]. *)
Fixpoint entries_of (df : DataFrame) (part : list string * list string → list string)
    (idx : Z) (l : list (gmap string Value * (list string * list string)))
  : list Entry :=
  match l with
  | [] => []
  | (row, p) :: l' =>
      match part p with
      | [] => entries_of df part (idx + 1) l'
      | ms => {| product_id := row_id df idx row; messages := ms |}
              :: entries_of df part (idx + 1) l'
      end
  end.

(** A registry with an Enum entry that lacks its values, and a frame with a
    value in that column. *)
Definition specs_without_values : list (string * FieldSpec) :=
  [ ("condition", {| type := Some Enum; values := None; max_length := None;
                     pattern := None; required := Some ReqConditional;
                     recommended := false |}) ].

Definition df_condition : DataFrame :=
  {| columns := ["condition"]; rows := [ {[ "condition" := VStr "new" ]} ] |}.

(** A registry whose one entry has a pattern that does not compile, and a
    frame with a value in that column. *)
Definition specs_bad_pattern : list (string * FieldSpec) :=
  [ ("gtin", {| type := Some String_; values := None; max_length := None;
                pattern := Some "("; required := Some ReqFalse;
                recommended := true |}) ].

Definition df_gtin : DataFrame :=
  {| columns := ["gtin"]; rows := [ {[ "gtin" := VStr "12345678" ]} ] |}.

(** A text made of white space only. *)
Fixpoint is_blank (s : string) : bool :=
  match s with
  | EmptyString => true
  | String c s' => Py.is_space c && is_blank s'
  end.

(** ** The keys of the markup document and the fields behind them *)

(** The keys [generate_schema_markup] can write at the top level. *)
Definition markup_keys : list string :=
  [ "@context"; "@type"; "sku"; "name"; "description"; "url"; "brand"; "gtin";
    "mpn"; "image"; "material"; "weight"; "offers"; "aggregateRating" ].

(** The fields of a record that [generate_schema_markup] looks up. *)
Definition markup_fields : list string :=
  [ "id"; "title"; "description"; "link"; "brand"; "gtin"; "mpn"; "image_link";
    "material"; "weight"; "price"; "availability"; "seller_name";
    "product_review_rating"; "product_review_count" ].

(** The address that stands for an availability, from its lower-case text. *)
Definition availability_address (a : string) : string :=
  if String.eqb a "out_of_stock" then "https://schema.org/OutOfStock"
  else if String.eqb a "preorder" then "https://schema.org/PreOrder"
  else "https://schema.org/InStock".

(** [shoe_record] with a NaN brand, a None seller and a key that the mapper
    has no use for. *)
Definition shoe_record_padded : gmap string Value :=
  <["brand" := VStr "Acme"]>
    (<["seller_name" := VNone]>
       (<["description" := NaN]>
          (<["color" := VStr "red"]> shoe_record))).

(** The keys [extract_product_from_schema] can write. *)
Definition record_keys : list string :=
  [ "title"; "description"; "link"; "image_link"; "id"; "gtin"; "mpn";
    "material"; "brand"; "price"; "availability"; "product_review_rating";
    "product_review_count" ].

(** The offer that [extract_product_from_schema] reads: the value of
    [offers] when it is an object, its first element when it is a list that
    starts with an object. *)
Definition offers_object (schema_data : gmap string json)
  : option (gmap string json) :=
  match schema_data !! "offers" with
  | Some (JObj d) => Some d
  | Some (JArr (JObj d :: _)) => Some d
  | _ => None
  end.

(** A document whose offer has a number where the availability should be,
    and one whose list of offers is empty. *)
Definition doc_bad_availability : gmap string json :=
  {[ "@type" := JStr "Product"; "name" := JStr "Shoe";
     "offers" := JObj {[ "price" := JVal (VInt 5); "availability" := JVal (VInt 1) ]} ]}.

Definition doc_no_offer : gmap string json :=
  {[ "@type" := JStr "Product"; "name" := JStr "Shoe"; "offers" := JArr [] ]}.

(** A document as a page may embed it: an image list, a brand object, two
    offers, a rating without count. *)
Definition doc_page : gmap string json :=
  {[ "@type" := JStr "Product"; "name" := JStr "Shoe";
     "image" := JArr [JStr "https://a.com/1.jpg"; JStr "https://a.com/2.jpg"];
     "brand" := JObj {[ "@type" := JStr "Brand"; "name" := JStr "Acme" ]};
     "weight" := JStr "1.5 lb";
     "offers" := JArr [ JObj {[ "price" := JStr "79.99";
                                "availability" := JStr "http://schema.org/InStock" ]};
                        JObj {[ "price" := JStr "89.99" ]} ];
     "aggregateRating" := JObj {[ "ratingValue" := JStr "4.5" ]} ]}.

(** ** scrape_website_products *)

(** What the scraper reads of a fetched page. [schema_scripts] holds, for
    each ld+json script in page order, the value [json.loads] gives for its
    text, or [None] when the call raises (a script without text, or text that
    is no JSON). [title_tag] is the text of the title tag. [description_meta]
    and [og_image_meta] are the [content] attribute of the two meta tags: the
    outer [None] when the page has no such tag, the inner one when the tag
    has no such attribute. *)
Record Page := {
  schema_scripts : list (option json);
  title_tag : option string;
  description_meta : option (option string);
  og_image_meta : option (option string) }.

(** [data.get('@type') == 'Product'] *)
Definition is_product (data : gmap string json) : bool :=
  match data !! "@type" with
  | Some (JVal (VStr t)) => String.eqb t "Product"
  | _ => false
  end.

(** The loop over the items of a script that holds a list. An exception
    leaves the loop, and the script, with the products appended so far. *)
Fixpoint scan_items (L : PyLib) (data : list json)
    (products : list (gmap string json)) : list (gmap string json) :=
  match data with
  | [] => products
  | JObj item :: rest =>
      if is_product item then
        match extract_product_from_schema L item with
        | Ok product => scan_items L rest (products ++ [product])
        | Raise _ => products
        end
      else scan_items L rest products
  | _ :: rest => scan_items L rest products
  end.

(** The body of the loop over the scripts, with its [except: continue]. *)
Definition scan_script (L : PyLib) (products : list (gmap string json))
    (script : option json) : list (gmap string json) :=
  match script with
  | None => products
  | Some (JObj data) =>
      if is_product data then
        match extract_product_from_schema L data with
        | Ok product => products ++ [product]
        | Raise _ => products
        end
      else products
  | Some (JArr data) => scan_items L data products
  | Some (JVal _) => products
  end.

(** [products] after the loop over the scripts. *)
Definition schema_products (L : PyLib) (scripts : list (option json))
  : list (gmap string json) :=
  fold_left (scan_script L) scripts [].

(** The record of the fallback branch. Subscripting the description tag
    raises KeyError when it has no [content]. *)
Definition fallback_product (url : string) (page : Page)
  : result (gmap string json) :=
  description ←
    match description_meta page with
    | Some (Some content) => Ok content
    | Some None => Raise (KeyError "content")
    | None => Ok ""
    end;
  let product : gmap string json :=
    <["link" := JStr url]>
      (<["description" := JStr description]>
         {[ "title" := JStr (default "" (title_tag page)) ]}) in
  Ok (match og_image_meta page with
      | Some content => <["image_link" := JStr (default "" content)]> product
      | None => product
      end).

(** [response] is the fetched and parsed page, [None] when the request or
    its status check raises. Every exception ends in the empty list. *)
Definition scrape_website_products (L : PyLib) (url : string)
    (response : option Page) : list (gmap string json) :=
  match response with
  | None => []
  | Some page =>
      match schema_products L (schema_scripts page) with
      | [] =>
          match fallback_product url page with
          | Ok product => [product]
          | Raise _ => []
          end
      | products => products
      end
  end.

(** A page with four scripts: a list whose second product has an empty
    list of offers, a text that is no JSON, a product whose availability is
    a number, and one product. *)
Definition page_shop : Page :=
  {| schema_scripts :=
       [ Some (JArr [JObj doc_page; JObj doc_no_offer; JObj doc_page]);
         None;
         Some (JObj doc_bad_availability);
         Some (JObj doc_page) ];
     title_tag := Some "Shop";
     description_meta := Some None;
     og_image_meta := None |}.

(** A page without scripts and with a description tag that has no
    [content], and the same page without the description tag. *)
Definition page_plain : Page :=
  {| schema_scripts := []; title_tag := Some "Shop";
     description_meta := Some None; og_image_meta := Some None |}.

Definition page_bare : Page :=
  {| schema_scripts := [Some (JObj doc_no_offer)]; title_tag := None;
     description_meta := None; og_image_meta := Some None |}.

(** ** config.py *)

(** [PRODUCT_FEED_SPECS], in the order of the source: for each field the
    keys that [validate_field] reads and the [example]. The keys
    [description] and [dependencies] are documentation only. *)
Definition PRODUCT_FEED_SPECS : list (string * FieldSpec * string) :=
  [ ("enable_search", spec_enum ["true"; "false"] ReqTrue, "true");
    ("enable_checkout", spec_enum ["true"; "false"] ReqTrue, "true");
    ("id", spec_string (Some 100) ReqTrue, "SKU12345");
    ("gtin", {| type := Some String_; values := None; max_length := None;
                pattern := Some "^\d{8,14}$"; required := Some ReqFalse;
                recommended := true |}, "123456789012");
    ("mpn", spec_string (Some 70) ReqConditional, "GPT5");
    ("title", spec_string (Some 150) ReqTrue, "Men's Trail Running Shoes Black");
    ("description", spec_string (Some 5000) ReqTrue,
       "Waterproof trail shoe with cushioned sole");
    ("link", spec_plain URL ReqTrue, "https://example.com/product/SKU12345");
    ("condition", spec_enum ["new"; "refurbished"; "used"] ReqConditional, "new");
    ("product_category", spec_string None ReqTrue, "Apparel & Accessories > Shoes");
    ("brand", spec_string (Some 70) ReqConditional, "OpenAI");
    ("material", spec_string (Some 100) ReqTrue, "Leather");
    ("weight", spec_plain Number ReqTrue, "1.5 lb");
    ("image_link", spec_plain URL ReqTrue, "https://example.com/image1.jpg");
    ("price", spec_plain Number ReqTrue, "79.99 USD");
    ("availability", spec_enum ["in_stock"; "out_of_stock"; "preorder"] ReqTrue,
       "in_stock");
    ("inventory_quantity", spec_plain Integer ReqTrue, "25");
    ("seller_name", spec_string (Some 70) ReqTrue, "Example Store");
    ("seller_url", spec_plain URL ReqTrue, "https://example.com/store");
    ("seller_privacy_policy", spec_plain URL ReqConditional,
       "https://example.com/privacy");
    ("seller_tos", spec_plain URL ReqConditional, "https://example.com/terms");
    ("return_policy", spec_plain URL ReqTrue, "https://example.com/returns");
    ("return_window", spec_plain Integer ReqTrue, "30") ].

(** [SCHEMA_ORG_MAPPING] *)
Definition SCHEMA_ORG_MAPPING : list (string * string) :=
  [ ("id", "sku"); ("title", "name"); ("description", "description");
    ("link", "url"); ("brand", "brand"); ("gtin", "gtin"); ("mpn", "mpn");
    ("image_link", "image"); ("material", "material"); ("weight", "weight") ].

(** The table of the configuration as [validate_product_feed] takes one. *)
Definition config_specs : list (string * FieldSpec) :=
  map (λ item, (item.1.1, item.1.2)) PRODUCT_FEED_SPECS.

(** The examples of the configuration that are addresses. *)
Definition config_urls : list string :=
  map snd
    (List.filter
       (λ item, match type item.1.2 with Some URL => true | _ => false end)
       PRODUCT_FEED_SPECS).

(** * Properties *)

(** ** The builtins on the values of the specification *)

Example float_3_9 : Py.float_of_string "3.9" =
  Some (S754_finite false 8782019273372467 (-51)).
Proof. vm_compute. reflexivity. Qed.

Example float_tenth : Py.float_of_string "0.1" =
  Some (S754_finite false 7205759403792794 (-56)).
Proof. vm_compute. reflexivity. Qed.

Example int_float_1e23 :
  Py.float_of_string "1e23" ≫= Py.int_of_float = Some 99999999999999991611392.
Proof. vm_compute. reflexivity. Qed.

Example float_underscores :
  Py.float_of_string " 1_000.5 " ≫= Py.int_of_float = Some 1000
  ∧ Py.float_of_string "1__0" = None ∧ Py.float_of_string "1_" = None.
Proof. vm_compute. auto. Qed.

(** The separator FS is white space for [split] and none for [float]; the
    no-break space is white space for both. *)
Example float_separators :
  Py.split (String "028" "5") = ["5"]
  ∧ Py.float_of_string (String "028" "5") = None
  ∧ Py.split (String "160" "5") = ["5"]
  ∧ Py.float_of_string (String "160" "5") ≫= Py.int_of_float = Some 5.
Proof. vm_compute. auto. Qed.

(** [lower] on a capital letter of the upper half. *)
Example lower_upper_half :
  Py.lower (String "201" "COLE") = String "233" "cole"
  ∧ Py.lower (String "215" "") = String "215" "".
Proof. vm_compute. auto. Qed.

Example split_price : Py.split "  79.99   USD " = ["79.99"; "USD"].
Proof. reflexivity. Qed.

Example thirty_percent : percent 3 10 = VFloat (Py.float_of_Z 30).
Proof. vm_compute. reflexivity. Qed.

(** ** validate_field *)

Section FieldValidator.

Variable L : PyLib.

Lemma is_missing_cases (v : Value) :
  is_missing v = true ↔ v = VNone ∨ v = NaN ∨ v = VStr "".
Proof.
  split.
  - destruct v as [| b | z | f | s]; cbn; try discriminate; auto.
    + destruct f; cbn; try discriminate; auto.
    + destruct s; cbn; try discriminate; auto.
  - intros [-> | [-> | ->]]; reflexivity.
Qed.

Lemma validate_field_present (field_name : string) (value : Value) (spec : FieldSpec) :
  is_missing value = false →
  validate_field L field_name value spec =
    errors ← type_errors L field_name value spec;
    unmatched ← pattern_errors L field_name value spec;
    Ok (errors ++ unmatched, []).
Proof. intros H. unfold validate_field. rewrite H. reflexivity. Qed.

Lemma type_errors_raise (field_name : string) (value : Value) (spec : FieldSpec)
    (e : PyExc) :
  type_errors L field_name value spec = Raise e →
  type spec = Some Enum ∧ values spec = None ∧ e = KeyError "values".
Proof.
  unfold type_errors. intros Ht.
  destruct (type spec) as [[| | | |]|]; try discriminate.
  - destruct (max_length spec); [destruct (_ <? _)|]; discriminate.
  - destruct (validators_url L _); discriminate.
  - destruct (Py.mem _ _); [discriminate|].
    destruct (values spec); [discriminate|].
    injection Ht as <-. auto.
  - destruct (int_float value); [destruct (_ <? _)|]; discriminate.
  - destruct (Py.split _); [discriminate|].
    destruct (Py.float_of_string _); discriminate.
Qed.

Lemma pattern_errors_raise (field_name : string) (value : Value) (spec : FieldSpec)
    (e : PyExc) :
  pattern_errors L field_name value spec = Raise e →
  e = ReError
  ∧ ∃ p, pattern spec = Some p ∧ re_match L p (str L value) = None.
Proof.
  unfold pattern_errors. intros Hp.
  destruct (pattern spec) as [p|]; [|discriminate].
  destruct (re_match L p (str L value)) as [[|]|] eqn:Hre; try discriminate.
  injection Hp as <-. eauto.
Qed.

Lemma pattern_errors_none (field_name : string) (value : Value) (spec : FieldSpec) :
  pattern spec = None → pattern_errors L field_name value spec = Ok [].
Proof. intros H. unfold pattern_errors. by rewrite H. Qed.

Lemma validate_field_returns (field_name : string) (value : Value) (spec : FieldSpec) :
  spec_runs L spec →
  ∃ errors warnings, validate_field L field_name value spec = Ok (errors, warnings).
Proof.
  intros [Hwf Hre]. unfold validate_field.
  destruct (is_missing value).
  - destruct (required spec) as [[| |]|]; eauto; destruct (recommended spec); eauto.
  - destruct (type_errors L field_name value spec) as [errors|e] eqn:Ht;
      cbn [mbind result_bind].
    + destruct (pattern_errors L field_name value spec) as [unmatched|e] eqn:Hp;
        cbn [mbind result_bind]; eauto.
      apply pattern_errors_raise in Hp as (_ & p & Hpat & Hnone).
      by destruct (Hre p Hpat (str L value)).
    + apply type_errors_raise in Ht as (Ht & Hv & _).
      unfold enum_has_values in Hwf. rewrite Ht, Hv in Hwf. discriminate.
Qed.

End FieldValidator.

(** C5. When the value is absent, empty or null, [validate_field] returns
    at once: the one error "Required field '<name>' is missing" when
    [required] is [True], otherwise the one warning "Recommended field
    '<name>' is missing" when the entry is recommended, otherwise nothing;
    no type or pattern message is produced. *)
Theorem validate_field_missing (L : PyLib) (field_name : string) (value : Value)
    (spec : FieldSpec) :
  is_missing value = true →
  validate_field L field_name value spec =
    Ok (match required spec with
        | Some ReqTrue => ([required_missing field_name], [])
        | _ =>
            if recommended spec then ([], [recommended_missing field_name])
            else ([], [])
        end).
Proof.
  intros H. unfold validate_field. rewrite H.
  destruct (required spec) as [[| |]|]; try reflexivity;
    destruct (recommended spec); reflexivity.
Qed.

Lemma validate_field_missing_witness :
  is_missing NaN = true
  ∧ validate_field Sample.lib "gtin" NaN
      {| type := Some String_; values := None; max_length := None;
         pattern := Some "^\d{8,14}$"; required := Some ReqFalse;
         recommended := true |}
    = Ok ([], ["Recommended field 'gtin' is missing"]).
Proof.
  split; [reflexivity|].
  apply (validate_field_missing Sample.lib "gtin" NaN); reflexivity.
Defined.

(** C7. Integer validation parses the value as a float and truncates it:
    "3.9" gives 3 and passes, "-1" gives the "must be non-negative" error,
    "abc" gives the "must be an integer" error. *)
Theorem validate_field_integer (L : PyLib) (field_name : string)
    (vs : option (list string)) (ml : option Z) (req : option Required) (rec : bool) :
  let spec := {| type := Some Integer; values := vs; max_length := ml;
                 pattern := None; required := req; recommended := rec |} in
  int_float (VStr "3.9") = Some 3
  ∧ validate_field L field_name (VStr "3.9") spec = Ok ([], [])
  ∧ int_float (VStr "-1") = Some (-1)
  ∧ validate_field L field_name (VStr "-1") spec =
      Ok (["'" +:+ field_name +:+ "' must be non-negative"], [])
  ∧ int_float (VStr "abc") = None
  ∧ validate_field L field_name (VStr "abc") spec =
      Ok (["'" +:+ field_name +:+ "' must be an integer"], []).
Proof.
  cbv zeta. repeat split; try (vm_compute; reflexivity).
Qed.

(** C8. Number validation splits the text on white space and parses its
    first token as a float: "79.99 USD" passes, "USD 79.99" gives the "must
    be a number" error. *)
Theorem validate_field_number (L : PyLib) (field_name : string)
    (vs : option (list string)) (ml : option Z) (req : option Required) (rec : bool) :
  let spec := {| type := Some Number; values := vs; max_length := ml;
                 pattern := None; required := req; recommended := rec |} in
  Py.split "79.99 USD" = ["79.99"; "USD"]
  ∧ validate_field L field_name (VStr "79.99 USD") spec = Ok ([], [])
  ∧ Py.split "USD 79.99" = ["USD"; "79.99"]
  ∧ Py.float_of_string "USD" = None
  ∧ validate_field L field_name (VStr "USD 79.99") spec =
      Ok (["'" +:+ field_name +:+ "' must be a number"], []).
Proof.
  cbv zeta. repeat split; try (vm_compute; reflexivity).
Qed.

(** C9. Enum validation compares in lower case: "TRUE" passes against
    ["true"; "false"]; when the value is not among the allowed ones, the one
    error lists them as they are written, joined by ", ". *)
Theorem validate_field_enum (L : PyLib) (field_name : string) (value : Value)
    (vs : list string) (ml : option Z) (req : option Required) (rec : bool) :
  let spec := {| type := Some Enum; values := Some vs; max_length := ml;
                 pattern := None; required := req; recommended := rec |} in
  is_missing value = false →
  validate_field L field_name value spec =
    Ok (if Py.mem (Py.lower (str L value)) (map Py.lower vs) then []
        else ["'" +:+ field_name +:+ "' must be one of:  " +:+ Py.join ", " vs],
        [])
  ∧ validate_field L field_name (VStr "TRUE")
      {| type := Some Enum; values := Some ["true"; "false"]; max_length := ml;
         pattern := None; required := req; recommended := rec |}
    = Ok ([], []).
Proof.
  intros spec H. split; [|reflexivity].
  rewrite validate_field_present by exact H.
  rewrite (pattern_errors_none L field_name value spec) by reflexivity.
  unfold type_errors, spec.
  cbn [type values default].
  destruct (Py.mem _ _); reflexivity.
Qed.

Lemma validate_field_enum_witness :
  is_missing (VStr "Damaged") = false
  ∧ validate_field Sample.lib "condition" (VStr "Damaged")
      {| type := Some Enum; values := Some ["New"; "Refurbished"; "Used"];
         max_length := None; pattern := None; required := Some ReqConditional;
         recommended := false |}
    = Ok (["'condition' must be one of:  New, Refurbished, Used"], []).
Proof.
  split; [reflexivity|].
  apply (validate_field_enum Sample.lib "condition" (VStr "Damaged")
           ["New"; "Refurbished"; "Used"] None (Some ReqConditional) false).
  reflexivity.
Defined.

(** C10. The pair returned by [validate_field] never has both parts
    non-empty and has at most one warning: a warning comes only from the
    absence branch of a recommended entry that is not required, with no
    error beside it, and a present value yields errors only. The call
    raises only for a present value: KeyError for an Enum entry without
    ['values'] whose check fails, [re.error] for a pattern that does not
    compile. *)
Theorem validate_field_errors_xor_warnings (L : PyLib) (field_name : string)
    (value : Value) (spec : FieldSpec) :
  match validate_field L field_name value spec with
  | Ok (errors, warnings) =>
      (errors = [] ∨ warnings = [])
      ∧ (length warnings ≤ 1)%nat
      ∧ (warnings ≠ [] →
         is_missing value = true ∧ recommended spec = true
         ∧ required spec ≠ Some ReqTrue ∧ errors = [])
      ∧ (is_missing value = false → warnings = [])
  | Raise e =>
      is_missing value = false
      ∧ ((type spec = Some Enum ∧ values spec = None ∧ e = KeyError "values")
         ∨ (e = ReError
            ∧ ∃ p, pattern spec = Some p
                   ∧ re_match L p (str L value) = None))
  end.
Proof.
  destruct (is_missing value) eqn:H.
  - unfold validate_field. rewrite H.
    destruct (required spec) as [[| |]|] eqn:Hr;
      destruct (recommended spec) eqn:Hc; cbn;
      repeat split; auto; try congruence; try lia.
  - rewrite validate_field_present by exact H.
    destruct (type_errors L field_name value spec) as [errors|e] eqn:Ht;
      cbn [mbind result_bind].
    + destruct (pattern_errors L field_name value spec) as [unmatched|e] eqn:Hp;
        cbn [mbind result_bind].
      * repeat split; auto. congruence.
      * apply pattern_errors_raise in Hp. split; [done|]. by right.
    + apply type_errors_raise in Ht. split; [done|]. left. tauto.
Qed.


(** ** validate_product_feed *)

Section FeedValidator.

Variable L : PyLib.

Lemma coverage_step_lookup (df : DataFrame) (results : Results)
    (item : string * FieldSpec) (field_name : string) :
  field_coverage (coverage_step df results item) !! field_name =
    if decide (item.1 = field_name) then Some (coverage_of df field_name)
    else field_coverage results !! field_name.
Proof.
  destruct item as [name spec]. unfold coverage_step, coverage_of. cbn [fst].
  destruct (decide (name = field_name)) as [->|Hne].
  - destruct (in_columns field_name df).
    + cbn. apply lookup_insert_eq.
    + destruct (required spec) as [[| |]|]; try destruct (recommended spec);
        cbn; apply lookup_insert_eq.
  - destruct (in_columns name df).
    + cbn. by apply lookup_insert_ne.
    + destruct (required spec) as [[| |]|]; try destruct (recommended spec);
        cbn; by apply lookup_insert_ne.
Qed.

Lemma coverage_loop_lookup (df : DataFrame) (specs : list (string * FieldSpec))
    (results : Results) (field_name : string) :
  field_coverage (fold_left (coverage_step df) specs results) !! field_name =
    if decide (field_name ∈ specs.*1) then Some (coverage_of df field_name)
    else field_coverage results !! field_name.
Proof.
  revert results. induction specs as [|item specs IH]; intros results.
  - cbn. rewrite decide_False; [done | set_solver].
  - cbn [fold_left]. rewrite IH, coverage_step_lookup. cbn [fmap list_fmap].
    destruct (decide (field_name ∈ specs.*1)) as [Hin|Hout].
    + rewrite decide_True; [done | set_solver].
    + destruct (decide (item.1 = field_name)) as [Heq|Hne].
      * rewrite decide_True; [done | set_solver].
      * rewrite decide_False; [done | set_solver].
Qed.

Lemma coverage_loop_total (df : DataFrame) (specs : list (string * FieldSpec))
    (results : Results) :
  total_products (fold_left (coverage_step df) specs results)
  = total_products results.
Proof.
  revert results. induction specs as [|[n s] specs IH]; intros results; [done|].
  cbn [fold_left]. rewrite IH. unfold coverage_step.
  destruct (in_columns n df); [done|].
  destruct (required s) as [[| |]|]; try destruct (recommended s); done.
Qed.

Lemma record_row_keeps (df : DataFrame) (idx : Z) (row : gmap string Value)
    (es ws : list string) (results : Results) :
  let results' := record_row df idx row es ws results in
  field_coverage results' = field_coverage results
  ∧ total_products results' = total_products results
  ∧ missing_required_fields results' = missing_required_fields results
  ∧ missing_recommended_fields results' = missing_recommended_fields results.
Proof. unfold record_row. destruct es, ws; cbn; auto. Qed.

Lemma validate_row_returns (df : DataFrame) (row : gmap string Value)
    (specs : list (string * FieldSpec)) :
  Forall (runs_on L df) specs →
  ∃ errors warnings, validate_row L df row specs = Ok (errors, warnings).
Proof.
  induction 1 as [|[name spec] specs Hwf _ (es & ws & IH)]; cbn; eauto.
  destruct (in_columns name df) eqn:Hcol; eauto.
  destruct (validate_field_returns L name (cell row name) spec (Hwf Hcol))
    as (e & w & ->).
  cbn. rewrite IH. cbn. eauto.
Qed.

Lemma validate_rows_returns (df : DataFrame) (specs : list (string * FieldSpec))
    (rs : list (gmap string Value)) (idx : Z) (results : Results) :
  Forall (runs_on L df) specs →
  ∃ results', validate_rows L df specs idx rs results = Ok results'
    ∧ field_coverage results' = field_coverage results
    ∧ total_products results' = total_products results
    ∧ missing_required_fields results' = missing_required_fields results
    ∧ missing_recommended_fields results' = missing_recommended_fields results.
Proof.
  intros Hwf. revert idx results.
  induction rs as [|row rs IH]; intros idx results; cbn; eauto 6.
  destruct (validate_row_returns df row specs Hwf) as (es & ws & ->). cbn.
  destruct (IH (idx + 1) (record_row df idx row es ws results))
    as (r' & -> & H1 & H2 & H3 & H4).
  destruct (record_row_keeps df idx row es ws results) as (K1 & K2 & K3 & K4).
  exists r'. repeat split; congruence.
Qed.

(** When the entries that the frame has a column for carry their values and
    have patterns that compile, feed validation returns and reports for
    every field of the registry the coverage entry of that field. *)
Lemma validate_product_feed_coverage (df : DataFrame)
    (specs : list (string * FieldSpec)) :
  Forall (runs_on L df) specs →
  ∃ results, validate_product_feed L df specs = Ok results
    ∧ total_products results = len_df df
    ∧ ∀ field_name, field_name ∈ specs.*1 →
        field_coverage results !! field_name = Some (coverage_of df field_name).
Proof.
  intros Hwf. unfold validate_product_feed.
  destruct (validate_rows_returns df specs (rows df) 0
              (fold_left (coverage_step df) specs (initial_results df)) Hwf)
    as (r' & -> & H1 & H2 & _).
  exists r'. split; [done|]. split.
  - by rewrite H2, coverage_loop_total.
  - intros field_name Hin. rewrite H1, coverage_loop_lookup.
    by rewrite decide_True.
Qed.

(** The messages of a row come from [validate_field] on the declared
    columns only. *)
Lemma validate_row_declared (df : DataFrame) (row : gmap string Value)
    (specs : list (string * FieldSpec)) (errors warnings : list string) (m : string) :
  validate_row L df row specs = Ok (errors, warnings) →
  m ∈ errors ++ warnings →
  ∃ field_name spec es ws,
    (field_name, spec) ∈ specs ∧ in_columns field_name df = true
    ∧ validate_field L field_name (cell row field_name) spec = Ok (es, ws)
    ∧ m ∈ es ++ ws.
Proof.
  revert errors warnings.
  induction specs as [|[name spec] specs IH]; intros errors warnings; cbn.
  - intros [= <- <-] Hm. by apply elem_of_nil in Hm.
  - destruct (in_columns name df) eqn:Hcol.
    + destruct (validate_field L name (cell row name) spec) as [[es ws]|] eqn:Hf;
        [|discriminate]. cbn.
      destruct (validate_row L df row specs) as [[es' ws']|]; [|discriminate]. cbn.
      intros [= <- <-] Hm.
      assert (m ∈ es ++ ws ∨ m ∈ es' ++ ws') as [Hhere|Hthere]
        by (rewrite !elem_of_app in *; tauto).
      * exists name, spec, es, ws. repeat split; auto. left.
      * destruct (IH es' ws' eq_refl Hthere) as (f & sp & e1 & w1 & Hin & H1 & H2 & H3).
        exists f, sp, e1, w1. repeat split; auto. by right.
    + intros Heq Hm.
      destruct (IH errors warnings Heq Hm) as (f & sp & e1 & w1 & Hin & H1 & H2 & H3).
      exists f, sp, e1, w1. repeat split; auto. by right.
Qed.

Lemma coverage_of_no_rows (df : DataFrame) (field_name : string) :
  rows df = [] → in_columns field_name df = true →
  coverage_of df field_name = {| present := true; filled := 0; percentage := NaN |}.
Proof.
  intros Hrows Hcol. unfold coverage_of, notna_sum, len_df.
  rewrite Hcol, Hrows. reflexivity.
Qed.

(** The registry has one pattern, the one of [gtin]. *)
Lemma load_specifications_runs_on (df : DataFrame) :
  (in_columns "gtin" df = true → ∀ s, re_match L "^\d{8,14}$" s ≠ None) →
  Forall (runs_on L df) load_specifications.
Proof.
  intros Hgtin. unfold load_specifications.
  repeat (apply List.Forall_cons;
          [intros Hcol; split; [reflexivity|]; intros p Hp;
           first [discriminate Hp | injection Hp as <-; by apply Hgtin]|]).
  apply List.Forall_nil.
Qed.

End FeedValidator.

(** C1, as the code has it. For the batch [[{title: "Shoe"}]] the validator
    runs on the one declared column: the row yields no message, no record
    report is made and [products_with_errors] is 0. The required fields
    without a column, the fifteen of the scenario and [description], are
    reported in [missing_required_fields]. *)
Theorem shoe_feed_report (L : PyLib) :
  ∃ results, validate_product_feed L df_shoe load_specifications = Ok results
    ∧ validate_row L df_shoe {[ "title" := VStr "Shoe" ]} load_specifications
      = Ok ([], [])
    ∧ total_products results = 1
    ∧ products_with_errors results = 0
    ∧ all_errors results = []
    ∧ all_warnings results = []
    ∧ missing_required_fields results = list_to_set ("description" :: shoe_missing)
    ∧ missing_recommended_fields results = {[ "gtin" ]}.
Proof.
  eexists. split; [vm_compute; reflexivity|].
  repeat split; vm_compute; reflexivity.
Qed.

Lemma shoe_scenario_fails : ¬ ∃ L, shoe_scenario L.
Proof.
  intros (L & results & report & Hrun & Hin & _).
  vm_compute in Hrun. injection Hrun as <-.
  cbn in Hin. by apply elem_of_nil in Hin.
Qed.

(** C2, at a feed with a header line and no record. Validation returns
    without a fault, and the percentage of a declared column is the NaN that
    the division 0 / 0 yields, where the claim has 0; a field without a
    column gets the integer 0. *)
Theorem header_only_feed_percentage (L : PyLib) :
  ∃ results, validate_product_feed L df_header_only load_specifications = Ok results
    ∧ total_products results = 0
    ∧ field_coverage results !! "title"
      = Some {| present := true; filled := 0; percentage := NaN |}
    ∧ percent 0 0 = NaN
    ∧ field_coverage results !! "brand"
      = Some {| present := false; filled := 0; percentage := VInt 0 |}.
Proof.
  destruct (validate_product_feed_coverage L df_header_only load_specifications
              (load_specifications_runs_on L df_header_only
                 ltac:(discriminate)))
    as (results & Hrun & Htotal & Hcov).
  exists results. split; [exact Hrun|]. split; [exact Htotal|].
  split; [|split; [reflexivity|]].
  - rewrite Hcov by (vm_compute; set_solver). reflexivity.
  - rewrite Hcov by (vm_compute; set_solver). reflexivity.
Qed.

(** C6, at the record the scraper falls back to. The empty title counts as
    filled: [filled] is 1 and the percentage 100, although [validate_field]
    reports the same value as missing. *)
Theorem blank_title_counts_as_filled (L : PyLib) :
  ∃ results errors warnings,
    validate_product_feed L df_blank_page load_specifications = Ok results
    ∧ field_coverage results !! "title"
      = Some {| present := true; filled := 1;
                percentage := VFloat (Py.float_of_Z 100) |}
    ∧ is_missing (VStr "") = true
    ∧ validate_row L df_blank_page
        {[ "title" := VStr ""; "description" := VStr "";
           "link" := VStr "https://example.com/p" ]} load_specifications
      = Ok (errors, warnings)
    ∧ required_missing "title" ∈ errors.
Proof.
  destruct (validate_product_feed_coverage L df_blank_page load_specifications
              (load_specifications_runs_on L df_blank_page
                 ltac:(discriminate)))
    as (results & Hrun & _ & Hcov).
  exists results.
  destruct L as [url re fs js].
  destruct (url "https://example.com/p") eqn:Hurl.
  - eexists _, _. split; [exact Hrun|]. split; [|split; [reflexivity|]].
    + rewrite Hcov by (vm_compute; set_solver). vm_compute. reflexivity.
    + split.
      * vm_compute. rewrite Hurl. reflexivity.
      * left.
  - eexists _, _. split; [exact Hrun|]. split; [|split; [reflexivity|]].
    + rewrite Hcov by (vm_compute; set_solver). vm_compute. reflexivity.
    + split.
      * vm_compute. rewrite Hurl. reflexivity.
      * left.
Qed.

(** ** generate_schema_markup and extract_product_from_schema *)

Section Markup.

Variable L : PyLib.

Lemma lookup_map_field (product_data : gmap string Value) (schema : gmap string json)
    (csv_field schema_field k : string) :
  map_field L product_data schema (csv_field, schema_field) !! k =
    if decide (schema_field = k) then
      match given product_data csv_field with
      | Some value => Some (rendered L k value)
      | None => schema !! k
      end
    else schema !! k.
Proof.
  unfold map_field, rendered.
  destruct (decide (schema_field = k)) as [->|Hne].
  - destruct (given product_data csv_field); [|done].
    destruct (String.eqb k "brand"); [apply lookup_insert_eq|].
    destruct (String.eqb k "image"); apply lookup_insert_eq.
  - destruct (given product_data csv_field); [|done].
    destruct (String.eqb schema_field "brand"); [by apply lookup_insert_ne|].
    destruct (String.eqb schema_field "image"); by apply lookup_insert_ne.
Qed.

Lemma lookup_extract_field (schema_data product : gmap string json)
    (schema_key csv_key k : string) :
  extract_field L schema_data product (schema_key, csv_key) !! k =
    if decide (csv_key = k) then
      match schema_data !! schema_key with
      | Some value => Some (extracted L value)
      | None => product !! k
      end
    else product !! k.
Proof.
  unfold extract_field, extracted.
  destruct (decide (csv_key = k)) as [->|Hne].
  - destruct (schema_data !! schema_key) as [[v|[|first l]|d]|];
      try apply lookup_insert_eq; done.
  - destruct (schema_data !! schema_key) as [[v|[|first l]|d]|];
      try (by apply lookup_insert_ne); done.
Qed.

Lemma lookup_map_fields_other (product_data : gmap string Value)
    (items : list (string * string)) (schema : gmap string json) (k : string) :
  k ∉ items.*2 →
  fold_left (map_field L product_data) items schema !! k = schema !! k.
Proof.
  revert schema. induction items as [|[csv key] items IH]; intros schema Hk; [done|].
  cbn [fold_left]. rewrite IH by set_solver.
  rewrite lookup_map_field. rewrite decide_False; [done|set_solver].
Qed.

Lemma lookup_map_fields (product_data : gmap string Value)
    (items : list (string * string)) (schema : gmap string json)
    (csv_field k : string) :
  NoDup items.*2 → (csv_field, k) ∈ items →
  fold_left (map_field L product_data) items schema !! k =
    match given product_data csv_field with
    | Some value => Some (rendered L k value)
    | None => schema !! k
    end.
Proof.
  revert schema. induction items as [|[csv key] items IH]; intros schema Hnd Hin.
  - by apply elem_of_nil in Hin.
  - cbn [fmap list_fmap] in Hnd. apply NoDup_cons in Hnd as [Hhead Htail].
    cbn [fold_left]. apply elem_of_cons in Hin as [[= <- <-]|Hin].
    + rewrite lookup_map_fields_other by exact Hhead.
      rewrite lookup_map_field. by rewrite decide_True.
    + rewrite IH by done. rewrite lookup_map_field.
      rewrite decide_False; [done|].
      intros ->. apply Hhead. apply list_elem_of_fmap. by exists (csv_field, k).
Qed.

Lemma field_mapping_keys :
  NoDup field_mapping.*2
  ∧ Forall (λ k, k ≠ "offers" ∧ k ≠ "aggregateRating"
                 ∧ k ≠ "@context" ∧ k ≠ "@type") field_mapping.*2.
Proof.
  split; compute_done.
Qed.

Lemma generate_outer_lookup (product_data : gmap string Value) (k : string) :
  k ≠ "offers" → k ≠ "aggregateRating" →
  generate_schema_markup L product_data !! k =
    fold_left (map_field L product_data) field_mapping
      {[ "@context" := JStr "https://schema.org/"; "@type" := JStr "Product" ]} !! k.
Proof.
  intros H1 H2. unfold generate_schema_markup.
  destruct (given product_data "product_review_rating");
    [rewrite lookup_insert_ne by done|];
    (destruct (given product_data "price"); [rewrite lookup_insert_ne by done|]);
    done.
Qed.

(** The fields copied under the renaming table: the document has the key
    exactly when the record has the field with a value that is not null. *)
Lemma generate_scalar_lookup (product_data : gmap string Value)
    (csv_field schema_field : string) :
  (csv_field, schema_field) ∈ field_mapping →
  generate_schema_markup L product_data !! schema_field
  = rendered L schema_field <$> given product_data csv_field.
Proof.
  intros Hin. destruct field_mapping_keys as [Hnd Hkeys].
  assert (schema_field ∈ field_mapping.*2) as Hk
    by (apply list_elem_of_fmap; by exists (csv_field, schema_field)).
  rewrite Forall_forall in Hkeys. destruct (Hkeys _ Hk) as (H1 & H2 & H3 & H4).
  rewrite generate_outer_lookup by done.
  rewrite (lookup_map_fields _ _ _ csv_field) by done.
  destruct (given product_data csv_field); [done|].
  rewrite lookup_insert_ne by done. rewrite lookup_singleton_ne by done. done.
Qed.

Lemma generate_offers_lookup (product_data : gmap string Value) :
  generate_schema_markup L product_data !! "offers"
  = (λ price, JObj (make_offer L product_data price)) <$> given product_data "price".
Proof.
  unfold generate_schema_markup.
  destruct (given product_data "product_review_rating");
    [rewrite lookup_insert_ne by done|];
    (destruct (given product_data "price"); [by rewrite lookup_insert_eq|]);
    (rewrite lookup_map_fields_other by compute_done;
     rewrite lookup_insert_ne by done; by rewrite lookup_singleton_ne).
Qed.

Lemma availability_uri (a : string) :
  default "https://schema.org/InStock" (availability_map !! a) =
    if String.eqb a "out_of_stock" then "https://schema.org/OutOfStock"
    else if String.eqb a "preorder" then "https://schema.org/PreOrder"
    else "https://schema.org/InStock".
Proof.
  unfold availability_map. rewrite !lookup_insert, lookup_singleton.
  destruct (String.eqb_spec a "out_of_stock") as [->|H1]; [done|].
  destruct (String.eqb_spec a "preorder") as [->|H2]; [done|].
  repeat case_decide; subst; done.
Qed.

Lemma make_offer_lookup (product_data : gmap string Value) (price : Value) :
  let offer := make_offer L product_data price in
  offer !! "price" =
    Some (JStr (match Py.split (str L price) with
                | p :: _ => p
                | [] => str L price
                end))
  ∧ offer !! "priceCurrency" =
      Some (JStr (match Py.split (str L price) with
                  | _ :: c :: _ => c
                  | _ => "USD"
                  end))
  ∧ offer !! "availability" =
      (λ a, JStr (default "https://schema.org/InStock"
                    (availability_map !! Py.lower (str L a))))
        <$> given product_data "availability".
Proof.
  unfold make_offer.
  destruct (given product_data "seller_name"), (given product_data "link"),
    (given product_data "availability"); cbn [fmap option_fmap option_map];
    repeat split;
    repeat (first [ rewrite lookup_insert_eq | rewrite lookup_insert_ne by done
                  | rewrite lookup_singleton_eq
                  | rewrite lookup_singleton_ne by done ]);
    reflexivity.
Qed.

Lemma lookup_extract_fields_other (schema_data : gmap string json)
    (items : list (string * string)) (product : gmap string json) (k : string) :
  k ∉ items.*2 →
  fold_left (extract_field L schema_data) items product !! k = product !! k.
Proof.
  revert product. induction items as [|[skey ckey] items IH]; intros product Hk; [done|].
  cbn [fold_left]. rewrite IH by set_solver.
  rewrite lookup_extract_field. rewrite decide_False; [done|set_solver].
Qed.

Lemma lookup_extract_fields (schema_data : gmap string json)
    (items : list (string * string)) (product : gmap string json)
    (schema_key k : string) :
  NoDup items.*2 → (schema_key, k) ∈ items →
  fold_left (extract_field L schema_data) items product !! k =
    match schema_data !! schema_key with
    | Some value => Some (extracted L value)
    | None => product !! k
    end.
Proof.
  revert product. induction items as [|[skey ckey] items IH]; intros product Hnd Hin.
  - by apply elem_of_nil in Hin.
  - cbn [fmap list_fmap] in Hnd. apply NoDup_cons in Hnd as [Hhead Htail].
    cbn [fold_left]. apply elem_of_cons in Hin as [[= <- <-]|Hin].
    + rewrite lookup_extract_fields_other by exact Hhead.
      rewrite lookup_extract_field. by rewrite decide_True.
    + rewrite IH by done. rewrite lookup_extract_field.
      rewrite decide_False; [done|].
      intros ->. apply Hhead. apply list_elem_of_fmap. by exists (schema_key, k).
Qed.

Lemma extract_brand_lookup (schema_data product : gmap string json) (k : string) :
  extract_brand schema_data product !! k =
    if decide (k = "brand") then
      match schema_data !! "brand" with
      | Some (JObj d) => Some (default (JObj d) (d !! "name"))
      | Some brand => Some brand
      | None => product !! k
      end
    else product !! k.
Proof.
  unfold extract_brand.
  destruct (decide (k = "brand")) as [->|Hne];
    destruct (schema_data !! "brand") as [[v|l|d]|];
    try apply lookup_insert_eq; try (by apply lookup_insert_ne); done.
Qed.

Lemma extract_rating_lookup (schema_data product : gmap string json) (k : string) :
  k ≠ "product_review_rating" → k ≠ "product_review_count" →
  extract_rating schema_data product !! k = product !! k.
Proof.
  intros H1 H2. unfold extract_rating.
  destruct (schema_data !! "aggregateRating") as [[v|l|d]|]; try done.
  by rewrite !lookup_insert_ne.
Qed.

Lemma extract_price_lookup (offers product : gmap string json) (k : string) :
  extract_price L offers product !! k =
    if decide (k = "price") then
      match offers !! "price" with
      | Some price =>
          Some (JStr (str_json L price +:+ " " +:+
                      str_json L (default (JStr "USD") (offers !! "priceCurrency"))))
      | None => product !! k
      end
    else product !! k.
Proof.
  unfold extract_price.
  destruct (decide (k = "price")) as [->|Hne]; destruct (offers !! "price");
    try apply lookup_insert_eq; try (by apply lookup_insert_ne); done.
Qed.

(** Each address the mapper writes for an availability reads back as the
    value it stands for. *)
Lemma extract_availability_uri (offers product : gmap string json) (a : string) :
  offers !! "availability" =
    Some (JStr (default "https://schema.org/InStock" (availability_map !! a))) →
  extract_availability offers product =
    Ok (<["availability" := JStr (availability_round_trip a)]> product).
Proof.
  intros Hav. unfold extract_availability, availability_round_trip.
  rewrite Hav, availability_uri.
  destruct (String.eqb a "out_of_stock"); [reflexivity|].
  destruct (String.eqb a "preorder"); reflexivity.
Qed.

Lemma mapping_keys : NoDup mapping.*2 ∧ "brand" ∉ mapping.*2.
Proof. split; compute_done. Qed.

(** A text field written by the mapper and read back by the extractor. *)
Lemma scalar_round_trip (product_data : gmap string Value)
    (product : gmap string json) (csv_field schema_field : string) :
  (csv_field, schema_field) ∈ field_mapping →
  (schema_field, csv_field) ∈ mapping →
  schema_field ≠ "brand" →
  fold_left (extract_field L (generate_schema_markup L product_data)) mapping ∅
    !! csv_field
  = (λ v, JStr (str L v)) <$> given product_data csv_field.
Proof.
  intros Hgen Hext Hne. destruct mapping_keys as [Hnd _].
  rewrite (lookup_extract_fields _ _ _ schema_field) by done.
  rewrite (generate_scalar_lookup _ csv_field) by done.
  unfold rendered. rewrite (proj2 (String.eqb_neq _ _) Hne).
  by destruct (given product_data csv_field).
Qed.

Lemma extract_offers_generated (product_data : gmap string Value)
    (product : gmap string json) :
  extract_offers L (generate_schema_markup L product_data) product =
    Ok (match given product_data "price" with
        | Some price =>
            let product :=
              <["price" := JStr (price_round_trip (str L price))]> product in
            match given product_data "availability" with
            | Some a =>
                <["availability" :=
                    JStr (availability_round_trip (Py.lower (str L a)))]> product
            | None => product
            end
        | None => product
        end).
Proof.
  unfold extract_offers. rewrite generate_offers_lookup.
  destruct (given product_data "price") as [price|]; [|reflexivity].
  cbn [fmap option_fmap option_map mbind result_bind].
  destruct (make_offer_lookup product_data price) as (Hp & Hc & Ha).
  assert (extract_price L (make_offer L product_data price) product
          = <["price" := JStr (price_round_trip (str L price))]> product) as ->.
  { unfold extract_price, price_round_trip. rewrite Hp, Hc.
    destruct (Py.split (str L price)) as [|p [|c l]]; reflexivity. }
  destruct (given product_data "availability") as [a|].
  - by apply extract_availability_uri.
  - unfold extract_availability.
    cbn [fmap option_fmap option_map] in Ha. by rewrite Ha.
Qed.

End Markup.

(** C3, as the code has it. The record extracted from the document that the
    mapper makes has, for title, description, link, brand and image, the
    text of the value the original record defines (that value itself when
    it is a string, not otherwise) and no value when the original defines
    none. The price comes back as its first two tokens, with USD for a
    missing second one, and the availability as the known value it names:
    "79.99 USD" with "in_stock" comes back as "79.99 USD" with "in_stock". *)
Theorem markup_round_trip (L : PyLib) (product_data : gmap string Value) :
  ∃ product,
    extract_product_from_schema L (generate_schema_markup L product_data) = Ok product
    ∧ Forall (λ field_name,
                product !! field_name
                = (λ v, JStr (str L v)) <$> given product_data field_name)
        ["title"; "description"; "link"; "brand"; "image_link"]
    ∧ Forall (λ field_name,
                ∀ s, product_data !! field_name = Some (VStr s) →
                     product !! field_name = Some (JStr s))
        ["title"; "description"; "link"; "brand"; "image_link"]
    ∧ product !! "price"
      = (λ v, JStr (price_round_trip (str L v))) <$> given product_data "price"
    ∧ product !! "availability"
      = match given product_data "price" with
        | Some _ =>
            (λ a, JStr (availability_round_trip (Py.lower (str L a))))
              <$> given product_data "availability"
        | None => None
        end
    ∧ (product_data !! "price" = Some (VStr "79.99 USD") →
       product_data !! "availability" = Some (VStr "in_stock") →
       product !! "price" = Some (JStr "79.99 USD")
       ∧ product !! "availability" = Some (JStr "in_stock")).
Proof.
  unfold extract_product_from_schema.
  rewrite extract_offers_generated. cbn [mbind result_bind].
  eexists. split; [reflexivity|].
  set (sd := generate_schema_markup L product_data).
  set (product0 := fold_left (extract_field L sd) mapping ∅).
  assert (Forall (λ field_name,
             extract_brand sd product0 !! field_name
             = (λ v, JStr (str L v)) <$> given product_data field_name)
            ["title"; "description"; "link"; "brand"; "image_link"]) as Hscalar.
  { repeat constructor; rewrite extract_brand_lookup.
    - rewrite decide_False by done.
      apply (scalar_round_trip L _ ∅ "title" "name"); [compute_done..|done].
    - rewrite decide_False by done.
      apply (scalar_round_trip L _ ∅ "description" "description"); [compute_done..|done].
    - rewrite decide_False by done.
      apply (scalar_round_trip L _ ∅ "link" "url"); [compute_done..|done].
    - rewrite decide_True by done. unfold sd.
      rewrite (generate_scalar_lookup L _ "brand") by compute_done.
      destruct (given product_data "brand") as [v|];
        cbn [fmap option_fmap option_map].
      + change (rendered L "brand" v)
          with (JObj {[ "@type" := JStr "Brand"; "name" := JStr (str L v) ]}).
        cbn [default]. rewrite lookup_insert_ne by done.
        by rewrite lookup_singleton_eq.
      + unfold product0. rewrite lookup_extract_fields_other; [done|].
        apply mapping_keys.
    - rewrite decide_False by done.
      apply (scalar_round_trip L _ ∅ "image_link" "image"); [compute_done..|done]. }
  assert (extract_brand sd product0 !! "price" = None
          ∧ extract_brand sd product0 !! "availability" = None) as [Hnoprice Hnoavail].
  { split; rewrite extract_brand_lookup, decide_False by done;
      unfold product0; rewrite lookup_extract_fields_other by compute_done; done. }
  set (product1 := extract_brand sd product0) in *.
  set (product := extract_rating sd _).
  assert (∀ k, k ≠ "price" → k ≠ "availability" →
               k ≠ "product_review_rating" → k ≠ "product_review_count" →
               product !! k = product1 !! k) as Hkeep.
  { intros k H1 H2 H3 H4. unfold product. rewrite extract_rating_lookup by done.
    destruct (given product_data "price"); [|done]. cbn zeta.
    destruct (given product_data "availability");
      by rewrite ?lookup_insert_ne by done. }
  assert (Forall (λ field_name,
             field_name ≠ "price" ∧ field_name ≠ "availability"
             ∧ field_name ≠ "product_review_rating"
             ∧ field_name ≠ "product_review_count")
            ["title"; "description"; "link"; "brand"; "image_link"]) as Hnames
    by compute_done.
  assert (∀ field_name,
             field_name ∈ ["title"; "description"; "link"; "brand"; "image_link"] →
             product !! field_name
             = (λ v, JStr (str L v)) <$> given product_data field_name) as Hfields.
  { rewrite Forall_forall in Hnames, Hscalar. intros f Hf.
    destruct (Hnames f Hf) as (H1 & H2 & H3 & H4).
    rewrite Hkeep by done. by apply Hscalar. }
  assert (product !! "price"
          = (λ v, JStr (price_round_trip (str L v))) <$> given product_data "price")
    as Hprice.
  { unfold product. rewrite extract_rating_lookup by done.
    destruct (given product_data "price"); [|done]. cbn zeta.
    destruct (given product_data "availability");
      rewrite ?lookup_insert_ne by done; by rewrite lookup_insert_eq. }
  assert (product !! "availability"
          = match given product_data "price" with
            | Some _ =>
                (λ a, JStr (availability_round_trip (Py.lower (str L a))))
                  <$> given product_data "availability"
            | None => None
            end) as Havail.
  { unfold product. rewrite extract_rating_lookup by done.
    destruct (given product_data "price"); [|done]. cbn zeta.
    destruct (given product_data "availability").
    - by rewrite lookup_insert_eq.
    - by rewrite lookup_insert_ne. }
  split; [by apply Forall_forall|].
  split; [|split; [exact Hprice|split; [exact Havail|]]].
  - apply Forall_forall. intros f Hf s' Hs.
    rewrite (Hfields f Hf). unfold given. by rewrite Hs.
  - intros Hp Ha. rewrite Hprice, Havail. unfold given. rewrite Hp, Ha. done.
Qed.

(** The round trip on a record, run with the sample library. *)
Example shoe_round_trip :
  ∃ product,
    extract_product_from_schema Sample.lib
      (generate_schema_markup Sample.lib shoe_record) = Ok product
    ∧ product !! "title" = Some (JStr "Shoe")
    ∧ product !! "brand" = Some (JStr "Acme")
    ∧ product !! "price" = Some (JStr "79.99 USD")
    ∧ product !! "availability" = Some (JStr "in_stock")
    ∧ product !! "description" = None.
Proof. eexists. split; [vm_compute; reflexivity|]. repeat split. Qed.

(** The title 1984 comes back as the text "1984": the mapper writes
    [str(value)], and the round trip as the specification words it fails. *)
Example numeric_title_comes_back_as_text :
  ∃ product,
    extract_product_from_schema Sample.lib
      (generate_schema_markup Sample.lib numeric_title) = Ok product
    ∧ product !! "title" = Some (JStr "1984").
Proof. eexists. split; [vm_compute; reflexivity|]. vm_compute. repeat split. Qed.

Lemma numeric_title_round_trip_fails : ¬ ∃ L, title_round_trip L numeric_title.
Proof.
  intros (L & product & Hrun & Htitle).
  vm_compute in Hrun. injection Hrun as <-.
  vm_compute in Htitle. discriminate.
Qed.

(** C4, as the code has it. The document has the key of a copied field
    exactly when the record has the field with a value that is neither NaN
    nor None, and [offers] exactly when it has such a price; an empty string
    is such a value, so an empty title gives the key [name] with the empty
    text. *)
Theorem markup_keys_not_null (L : PyLib) (product_data : gmap string Value) :
  Forall (λ item,
            generate_schema_markup L product_data !! item.2
            = rendered L item.2 <$> given product_data item.1
            ∧ (is_Some (generate_schema_markup L product_data !! item.2)
               ↔ ∃ v, product_data !! item.1 = Some v ∧ isna v = false))
    field_mapping
  ∧ generate_schema_markup L product_data !! "offers"
    = (λ price, JObj (make_offer L product_data price)) <$> given product_data "price"
  ∧ generate_schema_markup L blank_title !! "name" = Some (JStr "").
Proof.
  split; [|split].
  - rewrite Forall_forall. intros [csv key] Hin. cbn [fst snd].
    rewrite (generate_scalar_lookup L _ csv) by done. split; [done|].
    unfold given, notna. destruct (product_data !! csv) as [v|]; cbn.
    + destruct (isna v) eqn:Hna; cbn.
      * split; [by intros [? ?]|]. intros (v' & [= <-] & ?). congruence.
      * split; [eauto|]. intros _. by eexists.
    + split; [by intros [? ?]|]. by intros (? & ? & ?).
  - apply generate_offers_lookup.
  - vm_compute. reflexivity.
Qed.

Lemma blank_title_has_name : ¬ ∃ L, blank_title_has_no_name L.
Proof.
  intros [L H]. unfold blank_title_has_no_name in H.
  vm_compute in H. discriminate.
Qed.

(** * Further properties of the code *)

(** ** validate_product_feed, for every registry and frame *)

Section FeedReport.

Variable L : PyLib.

Lemma in_columns_elem (field_name : string) (df : DataFrame) :
  in_columns field_name df = true ↔ field_name ∈ columns df.
Proof.
  unfold in_columns, Py.mem. rewrite existsb_exists. split.
  - intros (x & Hin & Heq). apply String.eqb_eq in Heq as ->.
    by apply list_elem_of_In.
  - intros Hin. exists field_name. split; [by apply list_elem_of_In|].
    apply String.eqb_refl.
Qed.

Lemma entries_of_length (df : DataFrame) part (idx : Z) l :
  (length (entries_of df part idx l) ≤ length l)%nat.
Proof.
  revert idx. induction l as [|[row p] l IH]; intros idx;
    cbn [entries_of length]; [lia|].
  specialize (IH (idx + 1)). destruct (part p); cbn [length]; lia.
Qed.

Lemma record_row_entries (df : DataFrame) (idx : Z) (row : gmap string Value)
    (es ws : list string) (r : Results) :
  let r' := record_row df idx row es ws r in
  all_errors r' = all_errors r ++ entries_of df fst idx [(row, (es, ws))]
  ∧ all_warnings r' = all_warnings r ++ entries_of df snd idx [(row, (es, ws))]
  ∧ products_with_errors r'
    = products_with_errors r
      + Z.of_nat (length (entries_of df fst idx [(row, (es, ws))]))
  ∧ products_with_warnings r'
    = products_with_warnings r
      + Z.of_nat (length (entries_of df snd idx [(row, (es, ws))])).
Proof.
  unfold record_row, add_errors, add_warnings.
  destruct es, ws;
    cbn [entries_of fst snd length all_errors all_warnings
         products_with_errors products_with_warnings];
    rewrite ?app_nil_r; repeat split; lia.
Qed.

Lemma entries_of_cons (df : DataFrame) part (idx : Z) x l :
  entries_of df part idx (x :: l)
  = entries_of df part idx [x] ++ entries_of df part (idx + 1) l.
Proof. destruct x as [row p]. cbn [entries_of app]. by destruct (part p). Qed.

(** What the loop over the rows does to the results, when it returns. *)
Lemma validate_rows_entries (df : DataFrame) (specs : list (string * FieldSpec))
    (rs : list (gmap string Value)) (idx : Z) (r r' : Results) :
  validate_rows L df specs idx rs r = Ok r' →
  ∃ per_row,
    Forall2 (λ row p, validate_row L df row specs = Ok p) rs per_row
    ∧ all_errors r' = all_errors r ++ entries_of df fst idx (zip rs per_row)
    ∧ all_warnings r' = all_warnings r ++ entries_of df snd idx (zip rs per_row)
    ∧ products_with_errors r'
      = products_with_errors r
        + Z.of_nat (length (entries_of df fst idx (zip rs per_row)))
    ∧ products_with_warnings r'
      = products_with_warnings r
        + Z.of_nat (length (entries_of df snd idx (zip rs per_row)))
    ∧ field_coverage r' = field_coverage r
    ∧ total_products r' = total_products r
    ∧ missing_required_fields r' = missing_required_fields r
    ∧ missing_recommended_fields r' = missing_recommended_fields r.
Proof.
  revert idx r. induction rs as [|row rs IH]; intros idx r; cbn.
  - intros [= <-]. exists []. cbn [zip zip_with entries_of length].
    rewrite !app_nil_r. repeat split; auto; lia.
  - destruct (validate_row L df row specs) as [[es ws]|e] eqn:Hrow; [|discriminate].
    cbn [mbind result_bind]. intros Hrest.
    destruct (IH _ _ Hrest) as (per & HF & A1 & A2 & A3 & A4 & A5 & A6 & A7 & A8).
    destruct (record_row_entries df idx row es ws r) as (B1 & B2 & B3 & B4).
    destruct (record_row_keeps df idx row es ws r) as (K1 & K2 & K3 & K4).
    exists ((es, ws) :: per). split; [by constructor|].
    cbn [zip zip_with].
    rewrite (entries_of_cons df fst idx (row, (es, ws)) (zip rs per)).
    rewrite (entries_of_cons df snd idx (row, (es, ws)) (zip rs per)).
    rewrite A1, A2, A3, A4, B1, B2, B3, B4, !length_app, <- !app_assoc.
    repeat split; try congruence; lia.
Qed.

Lemma coverage_loop_keeps (df : DataFrame) (specs : list (string * FieldSpec))
    (r : Results) :
  let r' := fold_left (coverage_step df) specs r in
  all_errors r' = all_errors r ∧ all_warnings r' = all_warnings r
  ∧ products_with_errors r' = products_with_errors r
  ∧ products_with_warnings r' = products_with_warnings r.
Proof.
  revert r. induction specs as [|[n s] specs IH]; intros r; [done|].
  cbn [fold_left]. destruct (IH (coverage_step df r (n, s))) as (A & B & C & D).
  cbn zeta. rewrite A, B, C, D. unfold coverage_step.
  destruct (in_columns n df); [done|].
  destruct (required s) as [[| |]|]; try destruct (recommended s); done.
Qed.

Lemma coverage_step_missing (df : DataFrame) (r : Results) (n : string)
    (s : FieldSpec) (field_name : string) :
  let r' := coverage_step df r (n, s) in
  (field_name ∈ missing_required_fields r' ↔
     field_name ∈ missing_required_fields r
     ∨ (field_name = n ∧ in_columns n df = false ∧ required s = Some ReqTrue))
  ∧ (field_name ∈ missing_recommended_fields r' ↔
       field_name ∈ missing_recommended_fields r
       ∨ (field_name = n ∧ in_columns n df = false
          ∧ required s ≠ Some ReqTrue ∧ recommended s = true)).
Proof.
  cbn zeta. unfold coverage_step, set_coverage, add_missing_required,
    add_missing_recommended.
  destruct (in_columns n df).
  - cbn [missing_required_fields missing_recommended_fields]. naive_solver.
  - destruct (required s) as [[| |]|]; try destruct (recommended s);
      cbn [missing_required_fields missing_recommended_fields];
      rewrite ?elem_of_union, ?elem_of_singleton; naive_solver.
Qed.

Lemma coverage_loop_missing (df : DataFrame) (specs : list (string * FieldSpec))
    (r : Results) (field_name : string) :
  let r' := fold_left (coverage_step df) specs r in
  (field_name ∈ missing_required_fields r' ↔
     field_name ∈ missing_required_fields r
     ∨ ∃ spec, (field_name, spec) ∈ specs ∧ in_columns field_name df = false
               ∧ required spec = Some ReqTrue)
  ∧ (field_name ∈ missing_recommended_fields r' ↔
       field_name ∈ missing_recommended_fields r
       ∨ ∃ spec, (field_name, spec) ∈ specs ∧ in_columns field_name df = false
                 ∧ required spec ≠ Some ReqTrue ∧ recommended spec = true).
Proof.
  revert r. induction specs as [|[n s] specs IH]; intros r; cbn zeta.
  - cbn. split; (split; [auto|]); intros [?|(? & Hin & _)]; auto;
      by apply elem_of_nil in Hin.
  - cbn [fold_left]. destruct (IH (coverage_step df r (n, s))) as [IH1 IH2].
    cbn zeta in IH1, IH2. rewrite IH1, IH2. clear IH IH1 IH2.
    destruct (coverage_step_missing df r n s field_name) as [S1 S2].
    cbn zeta in S1, S2. rewrite S1, S2. clear S1 S2.
    split; split.
    + intros [[?|(-> & ? & ?)]|(sp & Hin & ?)]; auto.
      * right. exists s. split; [left|done].
      * right. exists sp. split; [by right|done].
    + intros [?|(sp & Hin & Hc & Hr)]; auto.
      apply elem_of_cons in Hin as [[= -> ->]|Hin]; [auto|].
      right. by exists sp.
    + intros [[?|(-> & ? & ?)]|(sp & Hin & ?)]; auto.
      * right. exists s. split; [left|done].
      * right. exists sp. split; [by right|done].
    + intros [?|(sp & Hin & Hc & Hr)]; auto.
      apply elem_of_cons in Hin as [[= -> ->]|Hin]; [auto|].
      right. by exists sp.
Qed.

End FeedReport.

(** X1. On a frame of scalar cells under distinct column names, feed
    validation returns and counts every row, provided every entry that the
    frame has a column for can be run: an Enum entry carries its values, and
    [re.match] takes the pattern, if there is one. An entry without a column
    is never run, so it may lack both. *)
Theorem feed_validation_returns (L : PyLib) (df : DataFrame)
    (specs : list (string * FieldSpec)) :
  NoDup (columns df) →
  Forall (runs_on L df) specs →
  ∃ results, validate_product_feed L df specs = Ok results
    ∧ total_products results = len_df df.
Proof.
  intros _ Hwf.
  destruct (validate_product_feed_coverage L df specs Hwf) as (r & Hrun & Ht & _).
  eauto.
Qed.

Lemma feed_validation_returns_witness :
  NoDup (columns df_blank_page)
  ∧ Forall (runs_on Sample.lib df_blank_page)
      (specs_bad_pattern ++ specs_without_values ++ load_specifications)
  ∧ ∃ results,
      validate_product_feed Sample.lib df_blank_page
        (specs_bad_pattern ++ specs_without_values ++ load_specifications)
      = Ok results
      ∧ total_products results = len_df df_blank_page.
Proof.
  assert (NoDup (columns df_blank_page)) as Hcols by compute_done.
  assert (Forall (runs_on Sample.lib df_blank_page)
            (specs_bad_pattern ++ specs_without_values ++ load_specifications))
    as Hwf.
  { apply Forall_app. split; [|apply Forall_app; split].
    - apply List.Forall_cons; [intros Hcol; discriminate Hcol|constructor].
    - apply List.Forall_cons; [intros Hcol; discriminate Hcol|constructor].
    - apply load_specifications_runs_on. discriminate. }
  split; [exact Hcols|]. split; [exact Hwf|].
  exact (feed_validation_returns Sample.lib df_blank_page _ Hcols Hwf).
Defined.

Section FeedFailure.

Variable L : PyLib.

Lemma validate_field_raise (field_name : string) (value : Value) (spec : FieldSpec)
    (e : PyExc) :
  validate_field L field_name value spec = Raise e →
  is_missing value = false
  ∧ ((e = KeyError "values" ∧ type spec = Some Enum ∧ values spec = None)
     ∨ (e = ReError
        ∧ ∃ p, pattern spec = Some p ∧ re_match L p (str L value) = None)).
Proof.
  unfold validate_field. destruct (is_missing value).
  - destruct (required spec) as [[| |]|]; try discriminate;
      destruct (recommended spec); discriminate.
  - destruct (type_errors L field_name value spec) as [errors|e'] eqn:Ht;
      cbn [mbind result_bind].
    + destruct (pattern_errors L field_name value spec) as [unmatched|e'] eqn:Hp;
        cbn [mbind result_bind]; [discriminate|].
      intros [= <-]. apply pattern_errors_raise in Hp. split; [done|]. by right.
    + intros [= <-]. apply type_errors_raise in Ht. split; [done|]. left. tauto.
Qed.

Lemma validate_row_raise (df : DataFrame) (row : gmap string Value)
    (specs : list (string * FieldSpec)) (e : PyExc) :
  validate_row L df row specs = Raise e →
  ∃ field_name spec,
    (field_name, spec) ∈ specs ∧ in_columns field_name df = true
    ∧ validate_field L field_name (cell row field_name) spec = Raise e.
Proof.
  induction specs as [|[name spec] specs IH]; cbn [validate_row]; [discriminate|].
  destruct (in_columns name df) eqn:Hcol.
  - destruct (validate_field L name (cell row name) spec) as [[es ws]|e'] eqn:Hf;
      cbn [mbind result_bind].
    + destruct (validate_row L df row specs) as [[es' ws']|e'']; [discriminate|].
      cbn [mbind result_bind]. intros [= <-].
      destruct (IH eq_refl) as (f & sp & Hin & H).
      exists f, sp. split; [by right|done].
    + intros [= <-]. exists name, spec. split; [left|done].
  - intros Hr. destruct (IH Hr) as (f & sp & Hin & H).
    exists f, sp. split; [by right|done].
Qed.

Lemma validate_rows_raise (df : DataFrame) (specs : list (string * FieldSpec))
    (rs : list (gmap string Value)) (idx : Z) (r : Results) (e : PyExc) :
  validate_rows L df specs idx rs r = Raise e →
  ∃ row, row ∈ rs ∧ validate_row L df row specs = Raise e.
Proof.
  revert idx r. induction rs as [|row rs IH]; intros idx r; cbn [validate_rows];
    [discriminate|].
  destruct (validate_row L df row specs) as [[es ws]|e'] eqn:Hrow;
    cbn [mbind result_bind].
  - intros Hr. destruct (IH _ _ Hr) as (row' & Hin & H).
    exists row'. split; [by right|done].
  - intros [= <-]. exists row. split; [left|done].
Qed.

End FeedFailure.

(** X2. On a frame of scalar cells under distinct column names, feed
    validation raises in two cases only, both at a row that holds a value
    that is not missing in a declared column: the KeyError of the message,
    when the entry of the column is an Enum without ['values'], and
    [re.error], when [re.match] does not take the pattern of the entry. *)
Theorem feed_validation_raises (L : PyLib) (df : DataFrame)
    (specs : list (string * FieldSpec)) (e : PyExc) :
  NoDup (columns df) →
  validate_product_feed L df specs = Raise e →
  ∃ row field_name spec,
    row ∈ rows df ∧ (field_name, spec) ∈ specs
    ∧ in_columns field_name df = true
    ∧ is_missing (cell row field_name) = false
    ∧ ((e = KeyError "values" ∧ type spec = Some Enum ∧ values spec = None)
       ∨ (e = ReError
          ∧ ∃ p, pattern spec = Some p
                 ∧ re_match L p (str L (cell row field_name)) = None)).
Proof.
  unfold validate_product_feed. intros _ Hr.
  apply validate_rows_raise in Hr as (row & Hin & Hrow).
  apply validate_row_raise in Hrow as (f & sp & Hsp & Hcol & Hf).
  apply validate_field_raise in Hf as [Hm Hcause].
  by exists row, f, sp.
Qed.

Lemma feed_validation_raises_witness :
  NoDup (columns df_gtin)
  ∧ validate_product_feed Sample.lib df_gtin specs_bad_pattern = Raise ReError
  ∧ ∃ row field_name spec,
      row ∈ rows df_gtin ∧ (field_name, spec) ∈ specs_bad_pattern
      ∧ in_columns field_name df_gtin = true
      ∧ is_missing (cell row field_name) = false
      ∧ ((ReError = KeyError "values" ∧ type spec = Some Enum
          ∧ values spec = None)
         ∨ (ReError = ReError
            ∧ ∃ p, pattern spec = Some p
                   ∧ re_match Sample.lib p (str Sample.lib (cell row field_name))
                     = None)).
Proof.
  assert (NoDup (columns df_gtin)) as Hcols by compute_done.
  assert (validate_product_feed Sample.lib df_gtin specs_bad_pattern
          = Raise ReError) as Hrun by reflexivity.
  split; [exact Hcols|]. split; [exact Hrun|].
  exact (feed_validation_raises Sample.lib df_gtin specs_bad_pattern ReError
           Hcols Hrun).
Defined.

Example feed_validation_raises_key_error :
  validate_product_feed Sample.lib df_condition specs_without_values
  = Raise (KeyError "values").
Proof. reflexivity. Qed.

Section FeedResults.

Variable L : PyLib.

Lemma entries_of_messages (df : DataFrame) part (idx : Z) l :
  Forall (λ e, messages e ≠ []) (entries_of df part idx l).
Proof.
  revert idx. induction l as [|[row p] l IH]; intros idx; cbn [entries_of];
    [constructor|].
  destruct (part p) eqn:Hp; [apply IH|]. constructor; [done|apply IH].
Qed.

(** The results of a run that returns, in terms of the coverage loop and of
    the rows paired with their validation. *)
Lemma validate_product_feed_results (df : DataFrame)
    (specs : list (string * FieldSpec)) (results : Results) :
  validate_product_feed L df specs = Ok results →
  ∃ per_row,
    Forall2 (λ row p, validate_row L df row specs = Ok p) (rows df) per_row
    ∧ all_errors results = entries_of df fst 0 (zip (rows df) per_row)
    ∧ all_warnings results = entries_of df snd 0 (zip (rows df) per_row)
    ∧ products_with_errors results = Z.of_nat (length (all_errors results))
    ∧ products_with_warnings results = Z.of_nat (length (all_warnings results))
    ∧ total_products results = len_df df
    ∧ field_coverage results
      = field_coverage (fold_left (coverage_step df) specs (initial_results df))
    ∧ missing_required_fields results
      = missing_required_fields
          (fold_left (coverage_step df) specs (initial_results df))
    ∧ missing_recommended_fields results
      = missing_recommended_fields
          (fold_left (coverage_step df) specs (initial_results df)).
Proof.
  unfold validate_product_feed. intros Hrun.
  apply validate_rows_entries in Hrun
    as (per & HF & A1 & A2 & A3 & A4 & A5 & A6 & A7 & A8).
  destruct (coverage_loop_keeps df specs (initial_results df)) as (K1 & K2 & K3 & K4).
  cbn zeta in K1, K2, K3, K4.
  rewrite K1 in A1. rewrite K2 in A2. rewrite K3 in A3. rewrite K4 in A4.
  cbn [initial_results all_errors all_warnings products_with_errors
       products_with_warnings app] in A1, A2, A3, A4.
  exists per. rewrite A3, A4, A6, coverage_loop_total, <- A1, <- A2.
  repeat split; auto; lia.
Qed.

End FeedResults.

(** X3. In the results of a run, [products_with_errors] is the number of
    entries of [all_errors] and [products_with_warnings] that of
    [all_warnings]; neither exceeds [total_products], and no entry has an
    empty list of messages. *)
Theorem feed_counters (L : PyLib) (df : DataFrame)
    (specs : list (string * FieldSpec)) (results : Results) :
  validate_product_feed L df specs = Ok results →
  products_with_errors results = Z.of_nat (length (all_errors results))
  ∧ products_with_warnings results = Z.of_nat (length (all_warnings results))
  ∧ products_with_errors results ≤ total_products results
  ∧ products_with_warnings results ≤ total_products results
  ∧ Forall (λ e, messages e ≠ []) (all_errors results)
  ∧ Forall (λ e, messages e ≠ []) (all_warnings results).
Proof.
  intros Hrun.
  apply validate_product_feed_results in Hrun
    as (per & HF & A1 & A2 & A3 & A4 & A5 & _).
  apply Forall2_length in HF.
  pose proof (entries_of_length df fst 0 (zip (rows df) per)) as B1.
  pose proof (entries_of_length df snd 0 (zip (rows df) per)) as B2.
  rewrite length_zip in B1, B2.
  rewrite A3, A4, A5, A1, A2. unfold len_df.
  repeat split; try lia; apply entries_of_messages.
Qed.

Lemma feed_counters_witness :
  ∃ results,
    validate_product_feed Sample.lib df_blank_page load_specifications = Ok results
    ∧ products_with_errors results = Z.of_nat (length (all_errors results))
    ∧ products_with_warnings results = Z.of_nat (length (all_warnings results))
    ∧ products_with_errors results ≤ total_products results
    ∧ products_with_warnings results ≤ total_products results
    ∧ Forall (λ e, messages e ≠ []) (all_errors results)
    ∧ Forall (λ e, messages e ≠ []) (all_warnings results).
Proof.
  destruct (validate_product_feed_coverage Sample.lib df_blank_page
              load_specifications
              (load_specifications_runs_on Sample.lib df_blank_page
                 ltac:(discriminate)))
    as (results & Hrun & _).
  exists results. split; [exact Hrun|].
  exact (feed_counters Sample.lib df_blank_page load_specifications results Hrun).
Defined.

(** X4. The entries of [all_errors] and of [all_warnings] are those of the
    rows whose validation gives errors, respectively warnings, in row order;
    each carries the messages of its row and the row's [id] cell when the
    frame has an [id] column, the label "Row <index>" otherwise. *)
Theorem feed_reports (L : PyLib) (df : DataFrame)
    (specs : list (string * FieldSpec)) (results : Results) :
  validate_product_feed L df specs = Ok results →
  ∃ per_row,
    Forall2 (λ row p, validate_row L df row specs = Ok p) (rows df) per_row
    ∧ all_errors results = entries_of df fst 0 (zip (rows df) per_row)
    ∧ all_warnings results = entries_of df snd 0 (zip (rows df) per_row).
Proof.
  intros Hrun.
  apply validate_product_feed_results in Hrun as (per & HF & A1 & A2 & _).
  by exists per.
Qed.

Lemma feed_reports_witness :
  ∃ results,
    validate_product_feed Sample.lib df_blank_page load_specifications = Ok results
    ∧ ∃ per_row,
        Forall2 (λ row p,
                   validate_row Sample.lib df_blank_page row load_specifications = Ok p)
          (rows df_blank_page) per_row
        ∧ all_errors results
          = entries_of df_blank_page fst 0 (zip (rows df_blank_page) per_row)
        ∧ all_warnings results
          = entries_of df_blank_page snd 0 (zip (rows df_blank_page) per_row).
Proof.
  destruct (validate_product_feed_coverage Sample.lib df_blank_page
              load_specifications
              (load_specifications_runs_on Sample.lib df_blank_page
                 ltac:(discriminate)))
    as (results & Hrun & _).
  exists results. split; [exact Hrun|].
  exact (feed_reports Sample.lib df_blank_page load_specifications results Hrun).
Defined.

Example blank_page_reports :
  ∃ results,
    validate_product_feed Sample.lib df_blank_page load_specifications = Ok results
    ∧ all_errors results
      = [ {| product_id := VStr "Row 0";
             messages := [ "Required field 'title' is missing";
                           "Required field 'description' is missing" ] |} ]
    ∧ all_warnings results = [].
Proof. eexists. split; [vm_compute; reflexivity|]. split; reflexivity. Qed.

(** X5. The fields of [field_coverage] are exactly the names of the
    registry, whatever columns the frame has. An entry says whether the
    frame has the column; its [filled] is the number of rows whose cell is
    neither NaN nor None, between 0 and [total_products], and a field
    without a column has [filled] 0 and the integer 0 as percentage. *)
Theorem feed_coverage_entries (L : PyLib) (df : DataFrame)
    (specs : list (string * FieldSpec)) (results : Results) :
  validate_product_feed L df specs = Ok results →
  dom (field_coverage results) = list_to_set specs.*1
  ∧ ∀ field_name c,
      field_coverage results !! field_name = Some c →
      c = coverage_of df field_name
      ∧ present c = in_columns field_name df
      ∧ 0 ≤ filled c ≤ total_products results
      ∧ (present c = true → filled c = notna_sum df field_name)
      ∧ (present c = false → filled c = 0 ∧ percentage c = VInt 0).
Proof.
  intros Hrun.
  apply validate_product_feed_results in Hrun
    as (per & _ & _ & _ & _ & _ & Ht & Hc & _).
  assert (∀ f, field_coverage results !! f =
               if decide (f ∈ specs.*1) then Some (coverage_of df f) else None) as Hl.
  { intros f. rewrite Hc, coverage_loop_lookup. by destruct (decide _). }
  split.
  - apply set_eq. intros f. rewrite elem_of_dom, Hl, elem_of_list_to_set.
    unfold is_Some. destruct (decide (f ∈ specs.*1)).
    + split; [done|]. intros _. by eexists.
    + split; [by intros [? ?]|done].
  - intros f c. rewrite Hl. destruct (decide (f ∈ specs.*1)); [|discriminate].
    intros [= <-]. split; [done|]. rewrite Ht.
    unfold coverage_of, notna_sum, len_df.
    pose proof (List.filter_length_le (λ row, notna (cell row f)) (rows df)).
    destruct (in_columns f df); cbn [present filled percentage];
      repeat split; try done; lia.
Qed.

Lemma feed_coverage_entries_witness :
  ∃ results,
    validate_product_feed Sample.lib df_blank_page load_specifications = Ok results
    ∧ dom (field_coverage results) = list_to_set load_specifications.*1
    ∧ ∀ field_name c,
        field_coverage results !! field_name = Some c →
        c = coverage_of df_blank_page field_name
        ∧ present c = in_columns field_name df_blank_page
        ∧ 0 ≤ filled c ≤ total_products results
        ∧ (present c = true → filled c = notna_sum df_blank_page field_name)
        ∧ (present c = false → filled c = 0 ∧ percentage c = VInt 0).
Proof.
  destruct (validate_product_feed_coverage Sample.lib df_blank_page
              load_specifications
              (load_specifications_runs_on Sample.lib df_blank_page
                 ltac:(discriminate)))
    as (results & Hrun & _).
  exists results. split; [exact Hrun|].
  exact (feed_coverage_entries Sample.lib df_blank_page load_specifications
           results Hrun).
Defined.

Lemma registry_unique {A} (l : list (string * A)) (k : string) (x y : A) :
  NoDup l.*1 → (k, x) ∈ l → (k, y) ∈ l → x = y.
Proof.
  induction l as [|[k' z] l IH]; intros Hnd Hx Hy.
  - by apply elem_of_nil in Hx.
  - cbn [fmap list_fmap] in Hnd. apply NoDup_cons in Hnd as [Hk Hnd].
    apply elem_of_cons in Hx as [Hx|Hx]; apply elem_of_cons in Hy as [Hy|Hy].
    + congruence.
    + injection Hx as -> ->. destruct Hk. apply list_elem_of_fmap. by exists (k', y).
    + injection Hy as -> ->. destruct Hk. apply list_elem_of_fmap. by exists (k', x).
    + by apply IH.
Qed.

(** X6. A field is in [missing_required_fields] exactly when the registry
    has it with [required] set to [True] and the frame has no column of that
    name; it is in [missing_recommended_fields] exactly when the registry has
    it recommended and not required and the frame has no such column. With
    one entry per name, as in a dictionary, no field is in both sets. *)
Theorem feed_missing_fields (L : PyLib) (df : DataFrame)
    (specs : list (string * FieldSpec)) (results : Results) :
  validate_product_feed L df specs = Ok results →
  (∀ field_name,
     field_name ∈ missing_required_fields results ↔
     ∃ spec, (field_name, spec) ∈ specs ∧ in_columns field_name df = false
             ∧ required spec = Some ReqTrue)
  ∧ (∀ field_name,
       field_name ∈ missing_recommended_fields results ↔
       ∃ spec, (field_name, spec) ∈ specs ∧ in_columns field_name df = false
               ∧ required spec ≠ Some ReqTrue ∧ recommended spec = true)
  ∧ (NoDup specs.*1 →
     missing_required_fields results ## missing_recommended_fields results).
Proof.
  intros Hrun.
  apply validate_product_feed_results in Hrun
    as (per & _ & _ & _ & _ & _ & _ & _ & Hr & Hc).
  assert (∀ f,
     (f ∈ missing_required_fields results ↔
      ∃ spec, (f, spec) ∈ specs ∧ in_columns f df = false
              ∧ required spec = Some ReqTrue)
     ∧ (f ∈ missing_recommended_fields results ↔
        ∃ spec, (f, spec) ∈ specs ∧ in_columns f df = false
                ∧ required spec ≠ Some ReqTrue ∧ recommended spec = true)) as H.
  { intros f. rewrite Hr, Hc.
    destruct (coverage_loop_missing df specs (initial_results df) f) as [H1 H2].
    cbn zeta in H1, H2. rewrite H1, H2.
    cbn [initial_results missing_required_fields missing_recommended_fields].
    split; (split; [intros [Hempty|?]; [by apply elem_of_empty in Hempty|done]
                   | by right]). }
  split; [intros f; apply H|]. split; [intros f; apply H|].
  intros Hnd f Hf1 Hf2.
  apply H in Hf1 as (s1 & Hin1 & _ & Hreq).
  apply H in Hf2 as (s2 & Hin2 & _ & Hnreq & _).
  by rewrite (registry_unique specs f s1 s2) in Hreq.
Qed.

Lemma feed_missing_fields_witness :
  ∃ results,
    validate_product_feed Sample.lib df_blank_page load_specifications = Ok results
    ∧ (∀ field_name,
         field_name ∈ missing_required_fields results ↔
         ∃ spec, (field_name, spec) ∈ load_specifications
                 ∧ in_columns field_name df_blank_page = false
                 ∧ required spec = Some ReqTrue)
    ∧ (∀ field_name,
         field_name ∈ missing_recommended_fields results ↔
         ∃ spec, (field_name, spec) ∈ load_specifications
                 ∧ in_columns field_name df_blank_page = false
                 ∧ required spec ≠ Some ReqTrue ∧ recommended spec = true)
    ∧ (NoDup load_specifications.*1 →
       missing_required_fields results ## missing_recommended_fields results).
Proof.
  destruct (validate_product_feed_coverage Sample.lib df_blank_page
              load_specifications
              (load_specifications_runs_on Sample.lib df_blank_page
                 ltac:(discriminate)))
    as (results & Hrun & _).
  exists results. split; [exact Hrun|].
  exact (feed_missing_fields Sample.lib df_blank_page load_specifications
           results Hrun).
Defined.

(** X7. On a frame without rows, feed validation returns for every
    registry, also one that [validate_field] would raise on: no entry, both
    counters 0, and every field of the registry that has a column gets
    [filled] 0 and the percentage NaN of the division 0 / 0. *)
Theorem feed_without_rows (L : PyLib) (df : DataFrame)
    (specs : list (string * FieldSpec)) :
  rows df = [] →
  ∃ results, validate_product_feed L df specs = Ok results
    ∧ total_products results = 0
    ∧ products_with_errors results = 0 ∧ products_with_warnings results = 0
    ∧ all_errors results = [] ∧ all_warnings results = []
    ∧ ∀ field_name,
        field_name ∈ specs.*1 → in_columns field_name df = true →
        field_coverage results !! field_name
        = Some {| present := true; filled := 0; percentage := NaN |}.
Proof.
  intros Hrows. unfold validate_product_feed. rewrite Hrows.
  cbn [validate_rows]. eexists. split; [reflexivity|].
  destruct (coverage_loop_keeps df specs (initial_results df)) as (K1 & K2 & K3 & K4).
  cbn zeta in K1, K2, K3, K4.
  rewrite coverage_loop_total, K1, K2, K3, K4.
  cbn [initial_results total_products all_errors all_warnings
       products_with_errors products_with_warnings].
  unfold len_df. rewrite Hrows. repeat split; try done.
  intros f Hin Hcol. rewrite coverage_loop_lookup, decide_True by done.
  by rewrite coverage_of_no_rows.
Qed.

Lemma feed_without_rows_witness :
  rows df_header_only = []
  ∧ ∃ results,
      validate_product_feed Sample.lib df_header_only specs_without_values
      = Ok results
      ∧ total_products results = 0
      ∧ products_with_errors results = 0 ∧ products_with_warnings results = 0
      ∧ all_errors results = [] ∧ all_warnings results = []
      ∧ ∀ field_name,
          field_name ∈ specs_without_values.*1 →
          in_columns field_name df_header_only = true →
          field_coverage results !! field_name
          = Some {| present := true; filled := 0; percentage := NaN |}.
Proof.
  split; [reflexivity|].
  apply (feed_without_rows Sample.lib df_header_only specs_without_values).
  reflexivity.
Defined.

(** ** validate_field, further *)

Section FieldChecks.

Variable L : PyLib.

Lemma type_errors_length (field_name : string) (value : Value) (spec : FieldSpec)
    (errors : list string) :
  type_errors L field_name value spec = Ok errors → (length errors ≤ 1)%nat.
Proof.
  unfold type_errors.
  destruct (type spec) as [[| | | |]|].
  - destruct (max_length spec); [destruct (_ <? _)|]; intros [= <-]; cbn; lia.
  - destruct (validators_url L _); intros [= <-]; cbn; lia.
  - destruct (Py.mem _ _); [intros [= <-]; cbn; lia|].
    destruct (values spec); [|discriminate]. intros [= <-]; cbn; lia.
  - destruct (int_float value); [destruct (_ <? _)|]; intros [= <-]; cbn; lia.
  - destruct (Py.split _); [intros [= <-]; cbn; lia|].
    destruct (Py.float_of_string _); intros [= <-]; cbn; lia.
  - intros [= <-]; cbn; lia.
Qed.

Lemma split_go_blank (s : string) :
  is_blank s = true → Py.split_go "" s = [].
Proof.
  induction s as [|c s IH]; [done|]. cbn [is_blank Py.split_go].
  intros [Hc Hs]%andb_prop. rewrite Hc. cbn [Py.flush app]. by apply IH.
Qed.

Lemma lstrip_Forall (P : ascii → Prop) (l : list ascii) :
  Forall P l → Forall P (Py.lstrip l).
Proof.
  induction 1 as [|c l Hc Hl IH]; [constructor|].
  cbn [Py.lstrip]. destruct (Py.is_float_space c); [exact IH|by constructor].
Qed.

Lemma strip_Forall (P : ascii → Prop) (l : list ascii) :
  Forall P l → Forall P (Py.strip l).
Proof.
  intros Hl. unfold Py.strip.
  apply Forall_rev, lstrip_Forall, Forall_rev, lstrip_Forall, Hl.
Qed.

Lemma is_blank_Forall (s : string) :
  is_blank s = true →
  Forall (λ c, Py.is_space c = true) (list_ascii_of_string s).
Proof.
  induction s as [|c s IH]; [constructor|].
  cbn [is_blank list_ascii_of_string]. intros [Hc Hs]%andb_prop.
  constructor; [exact Hc|by apply IH].
Qed.

(** [float] strips less than [split] does, and what it leaves of a blank
    text starts with a separator, which no numeral does. *)
Lemma float_of_string_blank (s : string) :
  is_blank s = true → Py.float_of_string s = None.
Proof.
  intros Hs. unfold Py.float_of_string.
  pose proof (strip_Forall _ _ (is_blank_Forall s Hs)) as Hb.
  destruct (Py.strip (list_ascii_of_string s)) as [|c r]; [reflexivity|].
  apply Forall_cons in Hb as [Hc _].
  destruct c as [[] [] [] [] [] [] [] []]; try discriminate Hc;
    cbn [Py.drop_underscores Ascii.eqb Bool.eqb];
    (destruct (Py.drop_underscores _ r) as [r'|]; [|reflexivity]);
    vm_compute; reflexivity.
Qed.

End FieldChecks.

(** X9. For a value that is present, [validate_field] gives no warning and
    at most two errors: at most one from the type check and at most one from
    the pattern, so at most one when the entry has no pattern; for a missing
    value it gives at most one message in all. *)
Theorem validate_field_message_count (L : PyLib) (field_name : string)
    (value : Value) (spec : FieldSpec) (errors warnings : list string) :
  validate_field L field_name value spec = Ok (errors, warnings) →
  (length errors ≤ 2)%nat
  ∧ (pattern spec = None → (length errors ≤ 1)%nat)
  ∧ (is_missing value = false → warnings = [])
  ∧ (is_missing value = true → (length errors + length warnings ≤ 1)%nat).
Proof.
  unfold validate_field. destruct (is_missing value).
  - destruct (required spec) as [[| |]|]; try destruct (recommended spec);
      intros [= <- <-]; cbn [length]; repeat split; intros; try done; lia.
  - destruct (type_errors L field_name value spec) as [es|e] eqn:Ht; [|discriminate].
    cbn [mbind result_bind].
    apply type_errors_length in Ht.
    unfold pattern_errors. destruct (pattern spec) as [p|].
    + destruct (re_match L p _) as [[|]|]; cbn [mbind result_bind];
        try discriminate; intros [= <- <-]; rewrite length_app;
        cbn [length]; repeat split; intros; try done; lia.
    + cbn [mbind result_bind]. intros [= <- <-]. rewrite length_app.
      cbn [length]; repeat split; intros; try done; lia.
Qed.

Lemma validate_field_message_count_witness :
  validate_field Sample.lib "gtin" (VStr "12-34")
    {| type := Some String_; values := None; max_length := Some 4;
       pattern := Some "^\d{8,14}$"; required := Some ReqFalse;
       recommended := true |}
  = Ok ([ "'gtin' exceeds max length of 4 characters";
          "'gtin' does not match required pattern" ], [])
  ∧ (length [ "'gtin' exceeds max length of 4 characters";
              "'gtin' does not match required pattern" ] ≤ 2)%nat
  ∧ (Some "^\d{8,14}$" = None →
     (length [ "'gtin' exceeds max length of 4 characters";
               "'gtin' does not match required pattern" ] ≤ 1)%nat)
  ∧ (is_missing (VStr "12-34") = false → @nil string = [])
  ∧ (is_missing (VStr "12-34") = true →
     (length [ "'gtin' exceeds max length of 4 characters";
               "'gtin' does not match required pattern" ]
      + length (@nil string) ≤ 1)%nat).
Proof.
  split; [reflexivity|].
  apply (validate_field_message_count Sample.lib "gtin" (VStr "12-34")
           {| type := Some String_; values := None; max_length := Some 4;
              pattern := Some "^\d{8,14}$"; required := Some ReqFalse;
              recommended := true |}).
  reflexivity.
Defined.

(** X10. A text made of white space only is not a missing value: a
    required field holding it gets no "is missing" error. As a Number it
    gets "must be a number", since it has no token to parse, as an Integer
    "must be an integer", and as a String without limit it passes. *)
Theorem validate_field_blank (L : PyLib) (field_name : string) (s : string)
    (vs : option (list string)) (ml : option Z) (req : option Required) (rec : bool) :
  is_blank s = true → s ≠ "" →
  is_missing (VStr s) = false
  ∧ validate_field L field_name (VStr s)
      {| type := Some Number; values := vs; max_length := ml; pattern := None;
         required := req; recommended := rec |}
    = Ok (["'" +:+ field_name +:+ "' must be a number"], [])
  ∧ validate_field L field_name (VStr s)
      {| type := Some Integer; values := vs; max_length := ml; pattern := None;
         required := req; recommended := rec |}
    = Ok (["'" +:+ field_name +:+ "' must be an integer"], [])
  ∧ validate_field L field_name (VStr s)
      {| type := Some String_; values := vs; max_length := None; pattern := None;
         required := req; recommended := rec |}
    = Ok ([], []).
Proof.
  intros Hblank Hne.
  assert (is_missing (VStr s) = false) as Hm by (by destruct s).
  split; [exact Hm|].
  rewrite !validate_field_present by exact Hm.
  unfold type_errors, pattern_errors, int_float, float, str, Py.split.
  cbn [type max_length pattern].
  rewrite split_go_blank, float_of_string_blank by done.
  repeat split.
Qed.

Lemma validate_field_blank_witness :
  is_blank "  " = true ∧ "  " ≠ ""
  ∧ is_missing (VStr "  ") = false
  ∧ validate_field Sample.lib "price" (VStr "  ")
      {| type := Some Number; values := None; max_length := None; pattern := None;
         required := Some ReqTrue; recommended := false |}
    = Ok (["'" +:+ "price" +:+ "' must be a number"], [])
  ∧ validate_field Sample.lib "price" (VStr "  ")
      {| type := Some Integer; values := None; max_length := None; pattern := None;
         required := Some ReqTrue; recommended := false |}
    = Ok (["'" +:+ "price" +:+ "' must be an integer"], [])
  ∧ validate_field Sample.lib "price" (VStr "  ")
      {| type := Some String_; values := None; max_length := None; pattern := None;
         required := Some ReqTrue; recommended := false |}
    = Ok ([], []).
Proof.
  split; [reflexivity|]. split; [discriminate|].
  apply (validate_field_blank Sample.lib "price" "  " None None (Some ReqTrue) false);
    [reflexivity|discriminate].
Defined.

Lemma mem_elem (x : string) (l : list string) : Py.mem x l = true ↔ x ∈ l.
Proof.
  unfold Py.mem. rewrite existsb_exists. split.
  - intros (y & Hin & Heq). apply String.eqb_eq in Heq as ->.
    by apply list_elem_of_In.
  - intros Hin. exists x. split; [by apply list_elem_of_In|apply String.eqb_refl].
Qed.

(** X11. Every allowed value of an Enum entry passes in any letter case, and
    so does a cell that pandas read as a boolean against the values "true"
    and "false": the comparison is made on the lower-case text of the cell. *)
Theorem validate_field_enum_allowed (L : PyLib) (field_name : string)
    (s v : string) (vs : list string) (ml : option Z) (req : option Required)
    (rec b : bool) :
  v ∈ vs → Py.lower s = Py.lower v → s ≠ "" →
  validate_field L field_name (VStr s)
    {| type := Some Enum; values := Some vs; max_length := ml; pattern := None;
       required := req; recommended := rec |}
  = Ok ([], [])
  ∧ validate_field L field_name (VBool b)
      {| type := Some Enum; values := Some ["true"; "false"]; max_length := ml;
         pattern := None; required := req; recommended := rec |}
    = Ok ([], []).
Proof.
  intros Hin Hlow Hne. split; [|by destruct b].
  rewrite validate_field_present by (by destruct s).
  unfold type_errors, pattern_errors. cbn [type values pattern default id].
  change (str L (VStr s)) with s.
  assert (Py.mem (Py.lower s) (map Py.lower vs) = true) as ->; [|done].
  apply mem_elem. rewrite Hlow. apply list_elem_of_fmap. by exists v.
Qed.

Lemma validate_field_enum_allowed_witness :
  "out_of_stock" ∈ ["in_stock"; "out_of_stock"; "preorder"]
  ∧ Py.lower "Out_Of_Stock" = Py.lower "out_of_stock"
  ∧ "Out_Of_Stock" ≠ ""
  ∧ validate_field Sample.lib "availability" (VStr "Out_Of_Stock")
      {| type := Some Enum; values := Some ["in_stock"; "out_of_stock"; "preorder"];
         max_length := None; pattern := None; required := Some ReqTrue;
         recommended := false |}
    = Ok ([], [])
  ∧ validate_field Sample.lib "availability" (VBool true)
      {| type := Some Enum; values := Some ["true"; "false"]; max_length := None;
         pattern := None; required := Some ReqTrue; recommended := false |}
    = Ok ([], []).
Proof.
  assert ("out_of_stock" ∈ ["in_stock"; "out_of_stock"; "preorder"]) as Hin
    by compute_done.
  split; [exact Hin|]. split; [reflexivity|]. split; [discriminate|].
  apply (validate_field_enum_allowed Sample.lib "availability" "Out_Of_Stock"
           "out_of_stock" ["in_stock"; "out_of_stock"; "preorder"] None
           (Some ReqTrue) false true Hin); [reflexivity|discriminate].
Defined.

Lemma lower_char_cases (c : ascii) :
  c = Py.lower_char c
  ∨ c = ascii_of_N (N_of_ascii (Py.lower_char c) - 32).
Proof. destruct c as [[] [] [] [] [] [] [] []]; vm_compute; auto. Qed.

Ltac letter_cases H :=
  match type of H with
  | Py.lower_char ?c = ?d =>
      let Hc := fresh in
      destruct (lower_char_cases c) as [Hc|Hc]; rewrite H in Hc;
      vm_compute in Hc; subst c; clear H
  end.

Ltac word_cases H :=
  repeat match type of H with
         | Py.lower ?w = _ =>
             destruct w; cbn [Py.lower] in H; try discriminate H
         | String _ _ = String _ _ =>
             let H1 := fresh in
             injection H as H1 H; letter_cases H1
         end.

(** X12. The Number check accepts the texts "inf", "infinity" and "nan", in
    any letter case and with a sign, since [float] parses them; the Integer
    check rejects them with "must be an integer", since [int] raises on an
    infinity and on NaN. *)
Theorem validate_field_inf_nan (L : PyLib) (field_name : string) (w : string)
    (vs : option (list string)) (ml : option Z) (req : option Required) (rec : bool) :
  Py.lower w ∈ ["inf"; "infinity"; "nan"] →
  Forall (λ s,
            validate_field L field_name (VStr s)
              {| type := Some Number; values := vs; max_length := ml;
                 pattern := None; required := req; recommended := rec |}
            = Ok ([], [])
            ∧ validate_field L field_name (VStr s)
                {| type := Some Integer; values := vs; max_length := ml;
                   pattern := None; required := req; recommended := rec |}
              = Ok (["'" +:+ field_name +:+ "' must be an integer"], []))
    [w; "-" +:+ w; "+" +:+ w].
Proof.
  intros Hw. repeat (apply elem_of_cons in Hw as [Hw|Hw]);
    [| | |by apply elem_of_nil in Hw];
    word_cases Hw; repeat constructor; vm_compute; reflexivity.
Qed.

Lemma validate_field_inf_nan_witness :
  Py.lower "NaN" ∈ ["inf"; "infinity"; "nan"]
  ∧ Forall (λ s,
              validate_field Sample.lib "price" (VStr s)
                {| type := Some Number; values := None; max_length := None;
                   pattern := None; required := Some ReqTrue; recommended := false |}
              = Ok ([], [])
              ∧ validate_field Sample.lib "price" (VStr s)
                  {| type := Some Integer; values := None; max_length := None;
                     pattern := None; required := Some ReqTrue;
                     recommended := false |}
                = Ok (["'" +:+ "price" +:+ "' must be an integer"], []))
      ["NaN"; "-" +:+ "NaN"; "+" +:+ "NaN"].
Proof.
  assert (Py.lower "NaN" ∈ ["inf"; "infinity"; "nan"]) as Hin
    by compute_done.
  split; [exact Hin|].
  exact (validate_field_inf_nan Sample.lib "price" "NaN" None None
           (Some ReqTrue) false Hin).
Defined.

(** ** generate_schema_markup, further *)

Section MarkupShape.

Variable L : PyLib.

Lemma generate_rating_lookup (product_data : gmap string Value) :
  generate_schema_markup L product_data !! "aggregateRating"
  = (λ r, JObj (make_rating L product_data r))
      <$> given product_data "product_review_rating".
Proof.
  unfold generate_schema_markup.
  destruct (given product_data "product_review_rating");
    [by rewrite lookup_insert_eq|].
  cbn [fmap option_fmap option_map].
  destruct (given product_data "price"); [rewrite lookup_insert_ne by done|];
    (rewrite lookup_map_fields_other by compute_done;
     rewrite lookup_insert_ne by done; by rewrite lookup_singleton_ne).
Qed.

Lemma generate_header_lookup (product_data : gmap string Value) :
  generate_schema_markup L product_data !! "@context"
  = Some (JStr "https://schema.org/")
  ∧ generate_schema_markup L product_data !! "@type" = Some (JStr "Product").
Proof.
  split; rewrite generate_outer_lookup by done;
    rewrite lookup_map_fields_other by compute_done.
  - by rewrite lookup_insert_eq.
  - rewrite lookup_insert_ne by done. by rewrite lookup_singleton_eq.
Qed.

Lemma generate_other_lookup (product_data : gmap string Value) (k : string) :
  k ∉ markup_keys → generate_schema_markup L product_data !! k = None.
Proof.
  intros Hk.
  assert (k ≠ "offers" ∧ k ≠ "aggregateRating" ∧ k ≠ "@context" ∧ k ≠ "@type")
    as (H1 & H2 & H3 & H4)
    by (repeat split; intros ->; apply Hk; compute_done).
  assert (k ∉ field_mapping.*2) as H5.
  { intros Hin. apply Hk.
    assert (field_mapping.*2 ⊆ markup_keys) as Hsub by compute_done.
    by apply Hsub. }
  rewrite generate_outer_lookup by done.
  rewrite lookup_map_fields_other by done.
  rewrite lookup_insert_ne by done. by rewrite lookup_singleton_ne.
Qed.

End MarkupShape.

(** X13. Every markup document has the keys [@context] with the schema.org
    address and [@type] with "Product", whatever the record holds, and no
    key besides these two, the ten of the renaming table, [offers] and
    [aggregateRating]. *)
Theorem markup_fixed_shape (L : PyLib) (product_data : gmap string Value) :
  generate_schema_markup L product_data !! "@context"
  = Some (JStr "https://schema.org/")
  ∧ generate_schema_markup L product_data !! "@type" = Some (JStr "Product")
  ∧ dom (generate_schema_markup L product_data) ⊆ list_to_set markup_keys.
Proof.
  destruct (generate_header_lookup L product_data) as [H1 H2].
  split; [exact H1|]. split; [exact H2|].
  apply elem_of_subseteq. intros k Hk. apply elem_of_list_to_set.
  destruct (decide (k ∈ markup_keys)) as [|Hout]; [done|].
  apply elem_of_dom in Hk as [j Hj].
  by rewrite generate_other_lookup in Hj.
Qed.

Lemma map_fields_same (L : PyLib) (product_data product_data' : gmap string Value)
    (items : list (string * string)) (schema : gmap string json) :
  Forall (λ item, given product_data item.1 = given product_data' item.1) items →
  fold_left (map_field L product_data) items schema
  = fold_left (map_field L product_data') items schema.
Proof.
  intros H. revert schema.
  induction H as [|[csv key] items Hk H IH]; intros schema; [done|].
  cbn [fold_left]. rewrite IH. unfold map_field. cbn [fst] in Hk. by rewrite Hk.
Qed.

(** X14. The mapper reads fifteen fields of the record and nothing else, and
    reads each through the guard "present and not null": two records whose
    guarded values agree on these fields give the same document, so a NaN or
    None cell counts as an absent key and any other key is ignored. *)
Theorem markup_reads_guarded_fields (L : PyLib)
    (product_data product_data' : gmap string Value) :
  Forall (λ k, given product_data k = given product_data' k) markup_fields →
  generate_schema_markup L product_data = generate_schema_markup L product_data'.
Proof.
  intros H. rewrite Forall_forall in H.
  assert (∀ k, k ∈ markup_fields →
               given product_data k = given product_data' k) as Hk by exact H.
  unfold generate_schema_markup.
  rewrite (map_fields_same L product_data product_data')
    by (apply Forall_forall; intros [csv key] Hin; apply Hk;
        assert (field_mapping.*1 ⊆ markup_fields) as Hsub by compute_done;
        apply Hsub, list_elem_of_fmap; by exists (csv, key)).
  rewrite (Hk "price"), (Hk "product_review_rating") by compute_done.
  destruct (given product_data' "product_review_rating") as [r|],
    (given product_data' "price") as [price|];
    unfold make_offer, make_rating;
    rewrite ?(Hk "availability"), ?(Hk "link"), ?(Hk "seller_name"),
      ?(Hk "product_review_count") by compute_done;
    reflexivity.
Qed.

Lemma markup_reads_guarded_fields_witness :
  Forall (λ k, given shoe_record_padded k = given shoe_record k) markup_fields
  ∧ generate_schema_markup Sample.lib shoe_record_padded
    = generate_schema_markup Sample.lib shoe_record.
Proof.
  assert (Forall (λ k, given shoe_record_padded k = given shoe_record k)
            markup_fields) as H by (repeat constructor).
  split; [exact H|].
  exact (markup_reads_guarded_fields Sample.lib shoe_record_padded shoe_record H).
Defined.

(** X15. A document has [offers] exactly when the record has a price that is
    not null; without one, availability, link and seller name leave no trace
    in an offer. The offer has its type, the first token of the price text as
    [price] (the whole text when it has no token), the second token as
    [priceCurrency] with "USD" when there is none, [url] exactly when the
    record has a link, [seller] as an Organization exactly when it has a
    seller name, and no other key but [availability]. *)
Theorem markup_offer (L : PyLib) (product_data : gmap string Value) :
  match given product_data "price" with
  | None => generate_schema_markup L product_data !! "offers" = None
  | Some price =>
      ∃ offer,
        generate_schema_markup L product_data !! "offers" = Some (JObj offer)
        ∧ offer !! "@type" = Some (JStr "Offer")
        ∧ offer !! "price"
          = Some (JStr (match Py.split (str L price) with
                        | p :: _ => p
                        | [] => str L price
                        end))
        ∧ offer !! "priceCurrency"
          = Some (JStr (match Py.split (str L price) with
                        | _ :: c :: _ => c
                        | _ => "USD"
                        end))
        ∧ offer !! "url" = (λ l, JStr (str L l)) <$> given product_data "link"
        ∧ offer !! "seller"
          = (λ n, JObj {[ "@type" := JStr "Organization";
                          "name" := JStr (str L n) ]})
              <$> given product_data "seller_name"
        ∧ dom offer ⊆ list_to_set
            ["@type"; "price"; "priceCurrency"; "availability"; "url"; "seller"]
  end.
Proof.
  rewrite generate_offers_lookup.
  destruct (given product_data "price") as [price|]; [|done].
  eexists. split; [reflexivity|].
  unfold make_offer.
  destruct (given product_data "seller_name"), (given product_data "link"),
    (given product_data "availability"); cbn [fmap option_fmap option_map];
    repeat split;
    repeat (first [ rewrite lookup_insert_eq | rewrite lookup_insert_ne by done
                  | rewrite lookup_singleton_eq
                  | rewrite lookup_singleton_ne by done ]);
    try reflexivity;
    rewrite ?dom_insert_L, ?dom_singleton_L; set_solver.
Qed.

(** X16. The availability of an offer is always one of the three schema.org
    addresses, never the text of the record: "out_of_stock" and "preorder",
    in any letter case, give their address, and every other value, known or
    not, gives the InStock address. *)
Theorem markup_offer_availability (L : PyLib) (product_data : gmap string Value)
    (price : Value) :
  make_offer L product_data price !! "availability"
  = (λ a, JStr (availability_address (Py.lower (str L a))))
      <$> given product_data "availability"
  ∧ ∀ a, availability_address a
         ∈ [ "https://schema.org/InStock"; "https://schema.org/OutOfStock";
             "https://schema.org/PreOrder" ].
Proof.
  split.
  - destruct (make_offer_lookup L product_data price) as (_ & _ & ->).
    destruct (given product_data "availability"); [|done].
    cbn [fmap option_fmap option_map]. by rewrite availability_uri.
  - intros a. unfold availability_address.
    destruct (String.eqb a "out_of_stock"); [set_solver|].
    destruct (String.eqb a "preorder"); set_solver.
Qed.

(** X17. A document has [aggregateRating] exactly when the record has a
    rating that is not null; the object carries the text of the rating, and
    [reviewCount] exactly when the record has a count. A count without a
    rating is dropped. *)
Theorem markup_rating (L : PyLib) (product_data : gmap string Value) :
  match given product_data "product_review_rating" with
  | None => generate_schema_markup L product_data !! "aggregateRating" = None
  | Some r =>
      ∃ rating,
        generate_schema_markup L product_data !! "aggregateRating"
        = Some (JObj rating)
        ∧ rating !! "@type" = Some (JStr "AggregateRating")
        ∧ rating !! "ratingValue" = Some (JStr (str L r))
        ∧ rating !! "reviewCount"
          = (λ c, JStr (str L c)) <$> given product_data "product_review_count"
  end.
Proof.
  rewrite generate_rating_lookup.
  destruct (given product_data "product_review_rating") as [r|]; [|done].
  eexists. split; [reflexivity|].
  unfold make_rating.
  destruct (given product_data "product_review_count");
    cbn [fmap option_fmap option_map]; repeat split;
    repeat (first [ rewrite lookup_insert_eq | rewrite lookup_insert_ne by done
                  | rewrite lookup_singleton_eq
                  | rewrite lookup_singleton_ne by done ]);
    reflexivity.
Qed.

(** ** extract_product_from_schema, further *)

Section Extraction.

Variable L : PyLib.

Lemma extract_availability_raise (offers product : gmap string json) (e : PyExc) :
  extract_availability offers product = Raise e ↔
  e = AttributeError
  ∧ ∃ x, offers !! "availability" = Some x ∧ ∀ a, x ≠ JStr a.
Proof.
  unfold extract_availability.
  destruct (offers !! "availability") as [[[| b | z | f | a] | l | d]|].
  1-4, 6-7: (split; [intros [= <-]; split; [done|]; eexists; split; [done|done]
                    | by intros [-> _]]).
  - split.
    + destruct (Py.contains "instock" _); [discriminate|].
      destruct (Py.contains "outofstock" _); [discriminate|].
      destruct (Py.contains "preorder" _); discriminate.
    + intros (_ & x & [= <-] & Hx). by destruct (Hx a).
  - split; [discriminate|]. by intros (_ & x & Hx & _).
Qed.

Lemma extract_availability_other (offers product product' : gmap string json)
    (k : string) :
  extract_availability offers product = Ok product' → k ≠ "availability" →
  product' !! k = product !! k.
Proof.
  unfold extract_availability. intros H Hk.
  destruct (offers !! "availability") as [[[| b | z | f | a] | l | d]|];
    try discriminate; try (injection H as <-; done).
  destruct (Py.contains "instock" _);
    [|destruct (Py.contains "outofstock" _);
      [|destruct (Py.contains "preorder" _)]];
    injection H as <-; by rewrite ?lookup_insert_ne.
Qed.

(** The object that the offers branch works on, and what the branch is. *)
Lemma extract_offers_object (schema_data product : gmap string json) :
  extract_offers L schema_data product =
    match schema_data !! "offers" with
    | Some (JArr []) => Raise IndexError
    | _ =>
        match offers_object schema_data with
        | Some d => extract_availability d (extract_price L d product)
        | None => Ok product
        end
    end.
Proof.
  unfold extract_offers, offers_object.
  destruct (schema_data !! "offers") as [[v|[|[v|l'|d] l]|d]|]; reflexivity.
Qed.

Lemma extract_offers_other (schema_data product product' : gmap string json)
    (k : string) :
  extract_offers L schema_data product = Ok product' →
  k ≠ "price" → k ≠ "availability" → product' !! k = product !! k.
Proof.
  rewrite extract_offers_object. intros H H1 H2.
  assert (match offers_object schema_data with
          | Some d => extract_availability d (extract_price L d product)
          | None => Ok product
          end = Ok product') as H'.
  { destruct (schema_data !! "offers") as [[v|[|x l]|d]|]; try done. }
  destruct (offers_object schema_data) as [d|]; [|by injection H' as <-].
  rewrite (extract_availability_other _ _ _ k H') by done.
  rewrite extract_price_lookup. by rewrite decide_False.
Qed.

Lemma extract_fields_same (schema_data schema_data' : gmap string json)
    (items : list (string * string)) (product : gmap string json) :
  Forall (λ item, schema_data !! item.1 = schema_data' !! item.1) items →
  fold_left (extract_field L schema_data) items product
  = fold_left (extract_field L schema_data') items product.
Proof.
  intros H. revert product.
  induction H as [|[skey ckey] items Hk H IH]; intros product; [done|].
  cbn [fold_left]. rewrite IH. unfold extract_field. cbn [fst] in Hk.
  by rewrite Hk.
Qed.

End Extraction.

(** X18. The extractor raises in two cases only: IndexError when [offers] is
    an empty list, and AttributeError when the offer it reads has an
    availability that is not a string; on every other document it returns. *)
Theorem extract_raises (L : PyLib) (schema_data : gmap string json) (e : PyExc) :
  extract_product_from_schema L schema_data = Raise e ↔
  (e = IndexError ∧ schema_data !! "offers" = Some (JArr []))
  ∨ (e = AttributeError
     ∧ ∃ d x, offers_object schema_data = Some d
              ∧ d !! "availability" = Some x ∧ ∀ a, x ≠ JStr a).
Proof.
  unfold extract_product_from_schema. rewrite extract_offers_object.
  set (product := extract_brand schema_data _).
  assert (∀ r : result (gmap string json),
            (r ≫= (λ p, Ok (extract_rating schema_data p))) = Raise e ↔ r = Raise e)
    as Hbind.
  { intros [p|e']; cbn [mbind result_bind]; split; congruence. }
  rewrite Hbind. unfold offers_object.
  destruct (schema_data !! "offers") as [[v|[|[v|l'|d] l]|d]|].
  1, 3, 4, 7: (split; [discriminate|];
               intros [[_ [=]]|(_ & d' & x & [=] & _)]).
  - split; [intros [= <-]; by left|].
    intros [[-> _]|(_ & d' & x & [=] & _)]. done.
  - rewrite extract_availability_raise. split.
    + intros (-> & x & Hx & Hn). right. split; [done|]. by exists d, x.
    + intros [[_ [=]]|(-> & d' & x & [= <-] & Hx & Hn)].
      split; [done|]. by exists x.
  - rewrite extract_availability_raise. split.
    + intros (-> & x & Hx & Hn). right. split; [done|]. by exists d, x.
    + intros [[_ [=]]|(-> & d' & x & [= <-] & Hx & Hn)].
      split; [done|]. by exists x.
Qed.

Example extract_raises_examples :
  extract_product_from_schema Sample.lib doc_no_offer = Raise IndexError
  ∧ extract_product_from_schema Sample.lib doc_bad_availability
    = Raise AttributeError.
Proof. split; vm_compute; reflexivity. Qed.

(** X19. The record that the extractor returns has no key beyond thirteen
    field names: it never has [weight], [seller_name] or any other field of
    the registry, whatever the document holds. *)
Theorem extract_record_keys (L : PyLib) (schema_data product : gmap string json) :
  extract_product_from_schema L schema_data = Ok product →
  dom product ⊆ list_to_set record_keys.
Proof.
  unfold extract_product_from_schema. intros H.
  destruct (extract_offers L schema_data _) as [p|e] eqn:Hoff; [|discriminate].
  cbn [mbind result_bind] in H. injection H as <-.
  apply elem_of_subseteq. intros k Hk. apply elem_of_list_to_set.
  destruct (decide (k ∈ record_keys)) as [|Hout]; [done|].
  apply elem_of_dom in Hk as [j Hj].
  assert (k ≠ "price" ∧ k ≠ "availability" ∧ k ≠ "brand"
          ∧ k ≠ "product_review_rating" ∧ k ≠ "product_review_count")
    as (H1 & H2 & H3 & H4 & H5)
    by (repeat split; intros ->; apply Hout; compute_done).
  rewrite extract_rating_lookup in Hj by done.
  rewrite (extract_offers_other L _ _ _ k Hoff) in Hj by done.
  rewrite extract_brand_lookup, decide_False in Hj by done.
  rewrite lookup_extract_fields_other in Hj; [done|].
  intros Hin. apply Hout.
  assert (mapping.*2 ⊆ record_keys) as Hsub by compute_done.
  by apply Hsub.
Qed.

Lemma extract_record_keys_witness :
  ∃ product,
    extract_product_from_schema Sample.lib doc_page = Ok product
    ∧ dom product ⊆ list_to_set record_keys.
Proof.
  eexists. split; [vm_compute; reflexivity|].
  eapply (extract_record_keys Sample.lib doc_page). vm_compute. reflexivity.
Defined.

Example doc_page_record :
  ∃ product,
    extract_product_from_schema Sample.lib doc_page = Ok product
    ∧ product !! "title" = Some (JStr "Shoe")
    ∧ product !! "image_link" = Some (JStr "https://a.com/1.jpg")
    ∧ product !! "brand" = Some (JStr "Acme")
    ∧ product !! "price" = Some (JStr "79.99 USD")
    ∧ product !! "availability" = Some (JStr "in_stock")
    ∧ product !! "product_review_rating" = Some (JStr "4.5")
    ∧ product !! "product_review_count" = Some (JStr "")
    ∧ product !! "weight" = None.
Proof. eexists. split; [vm_compute; reflexivity|]. vm_compute. repeat split. Qed.

(** X20. Of a list of offers only the first is read: the document with
    [offers] a list that starts with an object gives the same record as the
    document with that object as its [offers]. *)
Theorem extract_first_offer (L : PyLib) (schema_data : gmap string json)
    (d : gmap string json) (rest : list json) :
  extract_product_from_schema L (<["offers" := JArr (JObj d :: rest)]> schema_data)
  = extract_product_from_schema L (<["offers" := JObj d]> schema_data).
Proof.
  assert (Forall (λ item : string * string, item.1 ≠ "offers") mapping) as Hkeys
    by compute_done.
  unfold extract_product_from_schema.
  rewrite (extract_fields_same L
             (<["offers" := JArr (JObj d :: rest)]> schema_data)
             (<["offers" := JObj d]> schema_data)).
  - unfold extract_brand, extract_offers, extract_rating.
    rewrite !lookup_insert_eq.
    rewrite !(lookup_insert_ne _ "offers" "brand") by done.
    by rewrite !(lookup_insert_ne _ "offers" "aggregateRating") by done.
  - eapply Forall_impl; [exact Hkeys|]. intros [sk ck] Hne. cbn [fst] in *.
    by rewrite !lookup_insert_ne.
Qed.

Section RoundTrip.

Variable L : PyLib.

Lemma extract_returns_generated (product_data : gmap string Value) :
  ∃ product,
    extract_product_from_schema L (generate_schema_markup L product_data)
    = Ok product.
Proof.
  unfold extract_product_from_schema. rewrite extract_offers_generated.
  cbn [mbind result_bind]. by eexists.
Qed.

(** The keys that only the loop over the mapping writes. *)
Lemma extract_mapped_lookup (schema_data product : gmap string json) (k : string) :
  extract_product_from_schema L schema_data = Ok product →
  k ∉ ["price"; "availability"; "brand"; "product_review_rating";
       "product_review_count"] →
  product !! k = fold_left (extract_field L schema_data) mapping ∅ !! k.
Proof.
  unfold extract_product_from_schema. intros H Hk.
  destruct (extract_offers L schema_data _) as [p|e] eqn:Hoff; [|discriminate].
  cbn [mbind result_bind] in H. injection H as <-.
  assert (k ≠ "price" ∧ k ≠ "availability" ∧ k ≠ "brand"
          ∧ k ≠ "product_review_rating" ∧ k ≠ "product_review_count")
    as (H1 & H2 & H3 & H4 & H5)
    by (repeat split; intros ->; apply Hk; compute_done).
  rewrite extract_rating_lookup by done.
  rewrite (extract_offers_other L _ _ _ k Hoff) by done.
  by rewrite extract_brand_lookup, decide_False.
Qed.

(** The two rating keys are written together, from [aggregateRating]. *)
Lemma extract_rating_keys (schema_data product : gmap string json) :
  extract_product_from_schema L schema_data = Ok product →
  product !! "product_review_rating"
  = match schema_data !! "aggregateRating" with
    | Some (JObj rating) => Some (default (JStr "") (rating !! "ratingValue"))
    | _ => None
    end
  ∧ product !! "product_review_count"
    = match schema_data !! "aggregateRating" with
      | Some (JObj rating) => Some (default (JStr "") (rating !! "reviewCount"))
      | _ => None
      end.
Proof.
  unfold extract_product_from_schema. intros H.
  destruct (extract_offers L schema_data _) as [p|e] eqn:Hoff; [|discriminate].
  cbn [mbind result_bind] in H. injection H as <-.
  assert (∀ k, k = "product_review_rating" ∨ k = "product_review_count" →
               p !! k = None) as Hnone.
  { intros k Hk.
    rewrite (extract_offers_other L _ _ _ k Hoff) by (destruct Hk as [-> | ->]; done).
    rewrite extract_brand_lookup, decide_False by (destruct Hk as [-> | ->]; done).
    rewrite lookup_extract_fields_other; [done|].
    destruct Hk as [-> | ->]; compute_done. }
  unfold extract_rating.
  destruct (schema_data !! "aggregateRating") as [[v|l|rating]|];
    try (split; apply Hnone; auto).
  split.
  - rewrite lookup_insert_ne by done. by rewrite lookup_insert_eq.
  - by rewrite lookup_insert_eq.
Qed.

End RoundTrip.

(** X21. Through the mapper and back, [id], [gtin], [mpn] and [material]
    return as the text of the value the record defines, and as nothing when
    it defines none. [weight] and [seller_name] are written by the mapper
    and never read back. The rating returns as its text; with it the review
    count returns as its text, or as the empty string when the record has a
    rating and no count, and without a rating the count is lost. *)
Theorem markup_round_trip_rest (L : PyLib) (product_data : gmap string Value) :
  ∃ product,
    extract_product_from_schema L (generate_schema_markup L product_data) = Ok product
    ∧ Forall (λ field_name,
                product !! field_name
                = (λ v, JStr (str L v)) <$> given product_data field_name)
        ["id"; "gtin"; "mpn"; "material"]
    ∧ product !! "weight" = None
    ∧ product !! "seller_name" = None
    ∧ product !! "product_review_rating"
      = (λ r, JStr (str L r)) <$> given product_data "product_review_rating"
    ∧ product !! "product_review_count"
      = match given product_data "product_review_rating" with
        | Some _ =>
            Some (match given product_data "product_review_count" with
                  | Some c => JStr (str L c)
                  | None => JStr ""
                  end)
        | None => None
        end.
Proof.
  destruct (extract_returns_generated L product_data) as [product Hrun].
  exists product. split; [exact Hrun|].
  destruct (extract_rating_keys L _ _ Hrun) as [Hr Hc].
  rewrite generate_rating_lookup in Hr, Hc.
  split; [|split; [|split; [|split]]].
  - repeat constructor;
      rewrite (extract_mapped_lookup L _ _ _ Hrun) by compute_done.
    + apply (scalar_round_trip L _ ∅ "id" "sku"); [compute_done..|done].
    + apply (scalar_round_trip L _ ∅ "gtin" "gtin"); [compute_done..|done].
    + apply (scalar_round_trip L _ ∅ "mpn" "mpn"); [compute_done..|done].
    + apply (scalar_round_trip L _ ∅ "material" "material"); [compute_done..|done].
  - rewrite (extract_mapped_lookup L _ _ _ Hrun) by compute_done.
    by rewrite lookup_extract_fields_other by compute_done.
  - rewrite (extract_mapped_lookup L _ _ _ Hrun) by compute_done.
    by rewrite lookup_extract_fields_other by compute_done.
  - rewrite Hr. destruct (given product_data "product_review_rating") as [r|];
      [|done]. cbn [fmap option_fmap option_map]. unfold make_rating.
    destruct (given product_data "product_review_count");
      repeat (first [ rewrite lookup_insert_eq | rewrite lookup_insert_ne by done
                    | rewrite lookup_singleton_eq
                    | rewrite lookup_singleton_ne by done ]);
      reflexivity.
  - rewrite Hc. destruct (given product_data "product_review_rating") as [r|];
      [|done]. cbn [fmap option_fmap option_map]. unfold make_rating.
    destruct (given product_data "product_review_count");
      repeat (first [ rewrite lookup_insert_eq | rewrite lookup_insert_ne by done
                    | rewrite lookup_singleton_eq
                    | rewrite lookup_singleton_ne by done ]);
      reflexivity.
Qed.

Section Substring.

Lemma append_cons (c : ascii) (s t : string) :
  String c s +:+ t = String c (s +:+ t).
Proof. reflexivity. Qed.

Lemma lower_app (s t : string) : Py.lower (s +:+ t) = Py.lower s +:+ Py.lower t.
Proof.
  induction s as [|c s IH]; [done|].
  rewrite append_cons. cbn [Py.lower]. by rewrite append_cons, IH.
Qed.

Lemma prefix_app (s t : string) : String.prefix s (s +:+ t) = true.
Proof.
  induction s as [|c s IH]; [by destruct t|].
  rewrite append_cons. cbn [String.prefix].
  destruct (ascii_dec c c); [exact IH|done].
Qed.

Lemma contains_prefix (sub s : string) :
  String.prefix sub s = true → Py.contains sub s = true.
Proof. intros H. destruct s; cbn [Py.contains]; by rewrite H. Qed.

Lemma contains_app (sub pre post : string) :
  Py.contains sub (pre +:+ sub +:+ post) = true.
Proof.
  induction pre as [|c pre IH].
  - change ("" +:+ sub +:+ post) with (sub +:+ post).
    apply contains_prefix, prefix_app.
  - rewrite append_cons. cbn [Py.contains]. rewrite IH. apply orb_true_r.
Qed.

End Substring.

(** X22. The extractor recognises an availability by substring: any text
    that contains "instock", in any letter case and anywhere, gives
    "in_stock" (so do the http and https schema.org addresses), whatever else
    the text names. *)
Theorem extract_availability_in_stock (offers product : gmap string json)
    (pre w post : string) :
  Py.lower w = "instock" →
  offers !! "availability" = Some (JStr (pre +:+ w +:+ post)) →
  extract_availability offers product
  = Ok (<["availability" := JStr "in_stock"]> product).
Proof.
  intros Hw Hav. unfold extract_availability. rewrite Hav.
  rewrite !lower_app, Hw. by rewrite contains_app.
Qed.

Lemma extract_availability_in_stock_witness :
  Py.lower "InStock" = "instock"
  ∧ ({[ "availability" := JStr ("http://schema.org/" +:+ "InStock" +:+ "") ]}
       : gmap string json) !! "availability"
    = Some (JStr ("http://schema.org/" +:+ "InStock" +:+ ""))
  ∧ extract_availability
      {[ "availability" := JStr ("http://schema.org/" +:+ "InStock" +:+ "") ]} ∅
    = Ok (<["availability" := JStr "in_stock"]> ∅).
Proof.
  split; [reflexivity|]. split; [reflexivity|].
  apply (extract_availability_in_stock _ ∅ "http://schema.org/" "InStock" "");
    reflexivity.
Defined.

(** ** scrape_website_products *)

Section Scraper.

Variable L : PyLib.

Lemma scan_items_app (data : list json) (products : list (gmap string json)) :
  scan_items L data products = products ++ scan_items L data [].
Proof.
  revert products. induction data as [|item rest IH]; intros products.
  - cbn [scan_items]. by rewrite app_nil_r.
  - cbn [scan_items]. destruct item as [v|l|item]; [apply IH..|].
    destruct (is_product item); [|apply IH].
    destruct (extract_product_from_schema L item) as [product|e];
      [|by rewrite app_nil_r].
    rewrite (IH (products ++ [product])), (IH ([] ++ [product])).
    by rewrite <- !app_assoc.
Qed.

Lemma scan_script_app (products : list (gmap string json)) (script : option json) :
  scan_script L products script = products ++ scan_script L [] script.
Proof.
  destruct script as [[v|data|data]|]; cbn [scan_script];
    try (by rewrite app_nil_r).
  - apply scan_items_app.
  - destruct (is_product data); [|by rewrite app_nil_r].
    destruct (extract_product_from_schema L data); [done|by rewrite app_nil_r].
Qed.

Lemma scan_scripts_app (scripts : list (option json))
    (products : list (gmap string json)) :
  fold_left (scan_script L) scripts products
  = products ++ schema_products L scripts.
Proof.
  unfold schema_products. revert products.
  induction scripts as [|script scripts IH]; intros products.
  - cbn [fold_left]. by rewrite app_nil_r.
  - cbn [fold_left]. rewrite (IH (scan_script L products script)).
    rewrite (IH (scan_script L [] script)).
    rewrite (scan_script_app products). by rewrite <- app_assoc.
Qed.

Lemma scan_items_Forall (P : gmap string json → Prop) (data : list json)
    (products : list (gmap string json)) :
  (∀ d product, extract_product_from_schema L d = Ok product → P product) →
  Forall P products → Forall P (scan_items L data products).
Proof.
  intros HP. revert products.
  induction data as [|item rest IH]; intros products Hall; [done|].
  cbn [scan_items]. destruct item as [v|l|item]; [by apply IH..|].
  destruct (is_product item); [|by apply IH].
  destruct (extract_product_from_schema L item) as [product|e] eqn:Hrun;
    [|done].
  apply IH. apply Forall_app. split; [done|]. repeat constructor.
  by apply (HP item).
Qed.

Lemma scan_script_Forall (P : gmap string json → Prop) (script : option json)
    (products : list (gmap string json)) :
  (∀ d product, extract_product_from_schema L d = Ok product → P product) →
  Forall P products → Forall P (scan_script L products script).
Proof.
  intros HP Hall. destruct script as [[v|data|data]|]; cbn [scan_script];
    try done.
  - by apply scan_items_Forall.
  - destruct (is_product data); [|done].
    destruct (extract_product_from_schema L data) as [product|e] eqn:Hrun;
      [|done].
    apply Forall_app. split; [done|]. repeat constructor. by apply (HP data).
Qed.

Lemma schema_products_Forall (P : gmap string json → Prop)
    (scripts : list (option json)) :
  (∀ d product, extract_product_from_schema L d = Ok product → P product) →
  Forall P (schema_products L scripts).
Proof.
  intros HP. unfold schema_products.
  assert (∀ products, Forall P products →
            Forall P (fold_left (scan_script L) scripts products)) as H.
  { induction scripts as [|script scripts IH]; intros products Hall; [done|].
    cbn [fold_left]. apply IH. by apply scan_script_Forall. }
  by apply H.
Qed.

Lemma extract_lookup_outside (schema_data product : gmap string json)
    (k : string) :
  extract_product_from_schema L schema_data = Ok product →
  k ∉ record_keys → product !! k = None.
Proof.
  intros Hrun Hout.
  assert (["price"; "availability"; "brand"; "product_review_rating";
           "product_review_count"] ⊆ record_keys) as H5 by compute_done.
  assert (mapping.*2 ⊆ record_keys) as Hm by compute_done.
  rewrite (extract_mapped_lookup L _ _ _ Hrun) by (intros Hin; by apply Hout, H5).
  apply lookup_extract_fields_other. intros Hin. by apply Hout, Hm.
Qed.

Lemma fallback_lookup_outside (url : string) (page : Page)
    (product : gmap string json) (k : string) :
  fallback_product url page = Ok product →
  k ∉ ["title"; "description"; "link"; "image_link"] → product !! k = None.
Proof.
  unfold fallback_product. intros Hrun Hout.
  assert (k ≠ "title" ∧ k ≠ "description" ∧ k ≠ "link" ∧ k ≠ "image_link")
    as (H1 & H2 & H3 & H4)
    by (repeat split; intros ->; apply Hout; compute_done).
  destruct (description_meta page) as [[content|]|];
    cbn [mbind result_bind] in Hrun; try discriminate;
    injection Hrun as <-;
    destruct (og_image_meta page);
    rewrite ?(lookup_insert_ne _ "image_link") by done;
    rewrite (lookup_insert_ne _ "link") by done;
    rewrite (lookup_insert_ne _ "description") by done;
    by rewrite lookup_singleton_ne.
Qed.

End Scraper.

(** X23. In a script that holds a list, a Product whose extraction raises
    ends the reading of that script: the records of the items before it are
    kept, and the items after it are never read, whatever they are. *)
Theorem scrape_list_stops_at_failure (L : PyLib) (before after : list json)
    (item : gmap string json) (e : PyExc) (products : list (gmap string json)) :
  is_product item = true →
  extract_product_from_schema L item = Raise e →
  scan_script L products (Some (JArr (before ++ JObj item :: after)))
  = scan_script L products (Some (JArr before)).
Proof.
  intros Hp Hrun. cbn [scan_script]. revert products.
  induction before as [|x before IH]; intros products.
  - cbn [app scan_items]. by rewrite Hp, Hrun.
  - cbn [app scan_items]. destruct x as [v|l|d]; [apply IH..|].
    destruct (is_product d); [|apply IH].
    destruct (extract_product_from_schema L d); [apply IH|done].
Qed.

Lemma scrape_list_stops_at_failure_witness :
  is_product doc_no_offer = true
  ∧ extract_product_from_schema Sample.lib doc_no_offer = Raise IndexError
  ∧ scan_script Sample.lib []
      (Some (JArr ([JObj doc_page] ++ JObj doc_no_offer :: [JObj doc_page])))
    = scan_script Sample.lib [] (Some (JArr [JObj doc_page])).
Proof.
  assert (is_product doc_no_offer = true) as H1 by reflexivity.
  assert (extract_product_from_schema Sample.lib doc_no_offer = Raise IndexError)
    as H2 by (vm_compute; reflexivity).
  split; [exact H1|]. split; [exact H2|].
  exact (scrape_list_stops_at_failure Sample.lib [JObj doc_page] [JObj doc_page]
           doc_no_offer IndexError [] H1 H2).
Defined.

(** X24. The scripts of a page contribute independently and in page order:
    the products of a sequence of scripts are those of its first part
    followed by those of the rest, so a script that fails, or one that holds
    no product, neither removes nor changes the records of another. *)
Theorem scripts_independent (L : PyLib) (scripts scripts' : list (option json)) :
  schema_products L (scripts ++ scripts')
  = schema_products L scripts ++ schema_products L scripts'.
Proof.
  unfold schema_products at 1. rewrite fold_left_app.
  apply scan_scripts_app.
Qed.

(** X25. Every record the scraper returns, from a script or from the
    fallback, has its keys among the thirteen field names the extractor
    writes; the fallback record has no key but [title], [description],
    [link] and [image_link]. *)
Theorem scrape_record_keys (L : PyLib) (url : string) (response : option Page)
    (product : gmap string json) :
  product ∈ scrape_website_products L url response →
  dom product ⊆ list_to_set record_keys.
Proof.
  intros Hin.
  assert (∀ k, k ∉ record_keys → product !! k = None) as Hout.
  { cut (Forall (λ p : gmap string json, ∀ k, k ∉ record_keys → p !! k = None)
           (scrape_website_products L url response)).
    { intros Hall. exact (proj1 (list.Forall_forall _ _) Hall product Hin). }
    clear product Hin. unfold scrape_website_products. destruct response as [page|]; [|done].
    pose proof (schema_products_Forall L
                  (λ product, ∀ k, k ∉ record_keys → product !! k = None)
                  (schema_scripts page)
                  (λ d p Hrun k, extract_lookup_outside L d p k Hrun)) as Hall.
    destruct (schema_products L (schema_scripts page)) as [|p ps]; [|done].
    destruct (fallback_product url page) as [p|e] eqn:Hrun; [|done].
    repeat constructor. intros k Hk.
    apply (fallback_lookup_outside url page p k Hrun).
    intros Hin. apply Hk.
    assert (["title"; "description"; "link"; "image_link"] ⊆ record_keys)
      as Hsub by compute_done.
    by apply Hsub. }
  apply elem_of_subseteq. intros k Hk. apply elem_of_list_to_set.
  destruct (decide (k ∈ record_keys)) as [|Hno]; [done|].
  apply elem_of_dom in Hk as [j Hj]. by rewrite Hout in Hj.
Qed.

Lemma scrape_record_keys_witness :
  ∃ product,
    product ∈ scrape_website_products Sample.lib "https://a.com" (Some page_bare)
    ∧ dom product ⊆ list_to_set record_keys.
Proof.
  assert (∃ product,
            product ∈ scrape_website_products Sample.lib "https://a.com"
                        (Some page_bare)) as [product Hin].
  { eexists. vm_compute. left. }
  exists product. split; [exact Hin|].
  exact (scrape_record_keys Sample.lib "https://a.com" (Some page_bare)
           product Hin).
Defined.

(** X26. The scraper returns no record in two cases only: the page could
    not be fetched, or no script gave a product and the page has a
    description tag without [content]. A page without description tag, or
    with one that has its [content], always gives at least one record. *)
Theorem scrape_empty (L : PyLib) (url : string) (response : option Page) :
  scrape_website_products L url response = [] ↔
  match response with
  | None => True
  | Some page =>
      schema_products L (schema_scripts page) = []
      ∧ description_meta page = Some None
  end.
Proof.
  unfold scrape_website_products. destruct response as [page|]; [|done].
  destruct (schema_products L (schema_scripts page)) as [|p ps];
    [|split; [discriminate|by intros [? _]]].
  unfold fallback_product.
  destruct (description_meta page) as [[content|]|]; cbn [mbind result_bind];
    split; try done; try discriminate; by intros [_ ?].
Qed.

Example page_shop_products :
  scrape_website_products Sample.lib "https://a.com" (Some page_shop)
  = schema_products Sample.lib [Some (JObj doc_page); Some (JObj doc_page)]
  ∧ scrape_website_products Sample.lib "https://a.com" (Some page_plain) = []
  ∧ scrape_website_products Sample.lib "https://a.com" (Some page_bare)
    = [ {[ "title" := JStr ""; "description" := JStr "";
           "link" := JStr "https://a.com"; "image_link" := JStr "" ]} ].
Proof. vm_compute. repeat split. Qed.

(** ** config.py and utils.py *)

(** X27. Every example of the configuration passes the validator under its
    own specification, without error or warning, with any URL checker that
    accepts the seven example addresses and any matcher that accepts the
    example GTIN: also "1.5 lb" and "79.99 USD", of which the Number check
    reads the first token only. *)
Theorem config_examples_valid (L : PyLib) :
  (∀ u, u ∈ config_urls → validators_url L u = true) →
  re_match L "^\d{8,14}$" "123456789012" = Some true →
  Forall (λ item, validate_field L item.1.1 (VStr item.2) item.1.2 = Ok ([], []))
    PRODUCT_FEED_SPECS.
Proof.
  intros Hurl Hre.
  assert (∀ field_name u req,
            u ∈ config_urls →
            validate_field L field_name (VStr u) (spec_plain URL req)
            = Ok ([], [])) as Hplain.
  { intros field_name u req Hu. unfold validate_field.
    assert (is_missing (VStr u) = false) as ->.
    { destruct u; [|done]. exfalso. revert Hu. compute_done. }
    unfold type_errors, pattern_errors.
    cbn [type spec_plain pattern max_length values].
    change (str L (VStr u)) with u. by rewrite (Hurl u Hu). }
  repeat constructor; cbn [fst snd];
    try (apply Hplain; compute_done);
    try (vm_compute; reflexivity).
  unfold validate_field, type_errors, pattern_errors.
  cbn [is_missing isna orb type pattern max_length values mbind result_bind].
  change (str L (VStr "123456789012")) with "123456789012".
  by rewrite Hre.
Qed.

Lemma config_examples_valid_witness :
  (∀ u, u ∈ config_urls → validators_url Sample.lib u = true)
  ∧ re_match Sample.lib "^\d{8,14}$" "123456789012" = Some true
  ∧ Forall (λ item,
              validate_field Sample.lib item.1.1 (VStr item.2) item.1.2
              = Ok ([], []))
      PRODUCT_FEED_SPECS.
Proof.
  assert (∀ u, u ∈ config_urls → validators_url Sample.lib u = true) as H1.
  { apply (proj1 (list.Forall_forall _ _)). repeat constructor. }
  assert (re_match Sample.lib "^\d{8,14}$" "123456789012" = Some true) as H2
    by reflexivity.
  split; [exact H1|]. split; [exact H2|].
  exact (config_examples_valid Sample.lib H1 H2).
Defined.

(** X28. The two copies of the tables agree: the registry of the application
    is the table of the configuration without [seller_privacy_policy] and
    [seller_tos], field by field and in the same order, and the renaming
    table of the mapper is [SCHEMA_ORG_MAPPING]. The two fields the
    configuration adds are therefore never checked. *)
Theorem config_extends_registry :
  List.filter
    (λ item, negb (Py.mem item.1 ["seller_privacy_policy"; "seller_tos"]))
    config_specs
  = load_specifications
  ∧ SCHEMA_ORG_MAPPING = field_mapping
  ∧ ∀ field_name, field_name ∈ config_specs.*1 →
      field_name ∈ load_specifications.*1
      ∨ field_name ∈ ["seller_privacy_policy"; "seller_tos"].
Proof.
  split; [reflexivity|]. split; [reflexivity|].
  apply (proj1 (list.Forall_forall _ _)).
  repeat constructor; compute_done.
Qed.
